(** * Hex Canary worker: framed JSON protocol and lifecycle

    A shallow embedding of [src/runtime/canary/hex_canary_worker.py].

    The worker talks to its host over stdin/stdout with frames made of a
    4-byte big-endian length and a UTF-8 JSON payload.  The embedding keeps
    the structure of the script: [RuntimeConfig], [CanaryRuntime] with its
    [__init__], [load] and [transcribe], [read_message], [write_message] and
    [main].  Python exceptions are values of [exn]; code that can raise lives
    in a small state-and-exception monad.  Everything the script obtains from
    outside the repository (the JSON decoder, the file system, PyTorch and
    NeMo) is a field of the [Platform] class, so every theorem holds for any
    behaviour of those libraries. *)

From Stdlib Require Import ZArith NArith QArith List Lia Bool String Ascii SpecFloat.
From Stdlib.Strings Require Import Byte.
Import ListNotations.
Open Scope Z_scope.

(** ** Python data *)

(** A Python [str] is a sequence of code points. *)
Definition str := list N.

(** A Python [bytes] object. *)
Definition bytes := list byte.

Definition str_lit (s : string) : str := map N_of_ascii (list_ascii_of_string s).

Definition bytes_lit (s : string) : bytes := list_byte_of_string s.

Definition str_eqb (a b : str) : bool :=
  if list_eq_dec N.eq_dec a b then true else false.

(** [len(x)] as the integer Python computes. *)
Definition len {A : Type} (l : list A) : Z := Z.of_nat (List.length l).

(** ** Exceptions *)

(** The classes the script can meet.  [EOFError] stands for the class and its
    subclasses; [OtherException] is any other subclass of [Exception];
    [OtherBaseException] is a [BaseException] outside [Exception]
    (KeyboardInterrupt, SystemExit), which [except Exception] lets through. *)
Inductive exn_class :=
| EOFError
| RuntimeError
| OverflowError
| KeyError
| TypeError
| ValueError
| AttributeError
| UnicodeEncodeError
| JSONDecodeError
| OtherException (name : string)
| OtherBaseException (name : string).

(** An exception object: its class and [str(exc)]. *)
Record exn := mkExn { exn_cls : exn_class; exn_str : str }.

Definition is_EOFError (e : exn) : bool :=
  match exn_cls e with EOFError => true | _ => false end.

Definition is_Exception (e : exn) : bool :=
  match exn_cls e with OtherBaseException _ => false | _ => true end.

Inductive outcome (A : Type) :=
| Ok (a : A)
| Raise (e : exn).
Arguments Ok {A} a.
Arguments Raise {A} e.

(** ** The state-and-exception monad *)

Definition M (S A : Type) := S -> outcome A * S.

Definition ret {S A} (a : A) : M S A := fun s => (Ok a, s).

Definition raise {S A} (e : exn) : M S A := fun s => (Raise e, s).

Definition bind {S A B} (m : M S A) (k : A -> M S B) : M S B :=
  fun s => match m s with
           | (Ok a, s') => k a s'
           | (Raise e, s') => (Raise e, s')
           end.

(** [try: m  except <catches> as exc: h exc]. *)
Definition try_except {S A} (m : M S A) (catches : exn -> bool)
    (h : exn -> M S A) : M S A :=
  fun s => match m s with
           | (Ok a, s') => (Ok a, s')
           | (Raise e, s') => if catches e then h e s' else (Raise e, s')
           end.

(** A pure computation that may raise. *)
Definition lift_outcome {S A} (o : outcome A) : M S A := fun s => (o, s).

Declare Scope py_scope.
Delimit Scope py_scope with py.
Notation "x <- m ;; k" := (bind m (fun x => k))
  (at level 61, m at next level, right associativity) : py_scope.
Notation "m ;;; k" := (bind m (fun _ => k))
  (at level 61, right associativity) : py_scope.
Open Scope py_scope.

(** ** Values exchanged as JSON *)

(** The Python values the script handles as messages.  [O] is the type of
    every object outside the constructors below: numbers and all other
    objects, which the script only hands to library code. *)
#[warnings="-register-all"]
Inductive value (O : Type) :=
| VNone
| VBool (b : bool)
| VStr (s : str)
| VList (l : list (value O))
| VDict (d : list (str * value O))
| VOpaque (o : O).
Arguments VNone {O}.
Arguments VBool {O} b.
Arguments VStr {O} s.
Arguments VList {O} l.
Arguments VDict {O} d.
Arguments VOpaque {O} o.

(** [d.get(key)] and [d[key]] on a dict kept in insertion order. *)
Fixpoint dict_lookup {O} (key : str) (d : list (str * value O)) : option (value O) :=
  match d with
  | [] => None
  | (k, v) :: rest => if str_eqb k key then Some v else dict_lookup key rest
  end.

(** [d.get(key)]: None when the key is missing. *)
Definition dict_get {O} (key : str) (d : list (str * value O)) : value O :=
  match dict_lookup key d with
  | Some v => v
  | None => VNone
  end.

(** [v == "literal"]: only a [str] equals a [str]. *)
Definition value_eq_str {O} (v : value O) (s : str) : bool :=
  match v with
  | VStr t => str_eqb t s
  | _ => false
  end.

(** ** json.dumps with the default options *)

Definition hex_digit (n : N) : N :=
  (if n <? 10 then 48 + n else 87 + n)%N.

(** [format(n, "04x")] for [n < 0x10000]. *)
Definition hex4 (n : N) : str :=
  [ hex_digit (N.shiftr n 12 mod 16); hex_digit (N.shiftr n 8 mod 16);
    hex_digit (N.shiftr n 4 mod 16); hex_digit (n mod 16) ]%N.

Definition backslash : N := 92%N.
Definition dquote : N := 34%N.

(** The replacement [json.encoder] makes for one character with
    [ensure_ascii=True]: printable ASCII is kept, the short escapes are used
    where they exist, anything else becomes [\uXXXX], as a surrogate pair
    above the BMP. *)
Definition escape_char (c : N) : str :=
  (if c =? 34 then [backslash; 34]
   else if c =? 92 then [backslash; 92]
   else if c =? 8 then [backslash; 98]
   else if c =? 12 then [backslash; 102]
   else if c =? 10 then [backslash; 110]
   else if c =? 13 then [backslash; 114]
   else if c =? 9 then [backslash; 116]
   else if (32 <=? c) && (c <=? 126) then [c]
   else if c <? 65536 then backslash :: 117 :: hex4 c
   else
     let n := c - 65536 in
     let s1 := N.lor 55296 (N.land (N.shiftr n 10) 1023) in
     let s2 := N.lor 56320 (N.land n 1023) in
     (backslash :: 117 :: hex4 s1) ++ (backslash :: 117 :: hex4 s2))%N.

Definition encode_basestring_ascii (s : str) : str :=
  dquote :: flat_map escape_char s ++ [dquote].

(** [sep.join(parts)]. *)
Fixpoint join (sep : str) (parts : list str) : str :=
  match parts with
  | [] => []
  | [p] => p
  | p :: rest => p ++ sep ++ join sep rest
  end.

Definition is_ascii (s : str) : bool := forallb (fun c => (c <? 128)%N) s.

(** The text of a JSON object whose values are all strings. *)
Definition field_text (kv : str * str) : str :=
  encode_basestring_ascii (fst kv) ++ str_lit ": " ++ encode_basestring_ascii (snd kv).

Definition object_text (fields : list (str * str)) : str :=
  str_lit "{" ++ join (str_lit ", ") (map field_text fields) ++ str_lit "}".

Section Dumps.
Context {O : Type}.
(** What [json.dumps] does with an object outside the JSON-native
    constructors: the text of a number, or the [TypeError] of an object it
    cannot serialise. *)
Variable dumps_opaque : O -> outcome str.

Fixpoint json_dumps (v : value O) : outcome str :=
  match v with
  | VNone => Ok (str_lit "null")
  | VBool true => Ok (str_lit "true")
  | VBool false => Ok (str_lit "false")
  | VStr s => Ok (encode_basestring_ascii s)
  | VList l =>
      match
        (fix items (l : list (value O)) : outcome (list str) :=
           match l with
           | [] => Ok []
           | x :: rest =>
               match json_dumps x with
               | Raise e => Raise e
               | Ok sx =>
                   match items rest with
                   | Raise e => Raise e
                   | Ok srest => Ok (sx :: srest)
                   end
               end
           end) l
      with
      | Raise e => Raise e
      | Ok parts => Ok (str_lit "[" ++ join (str_lit ", ") parts ++ str_lit "]")
      end
  | VDict d =>
      match
        (fix items (d : list (str * value O)) : outcome (list str) :=
           match d with
           | [] => Ok []
           | (k, x) :: rest =>
               match json_dumps x with
               | Raise e => Raise e
               | Ok sx =>
                   match items rest with
                   | Raise e => Raise e
                   | Ok srest =>
                       Ok ((encode_basestring_ascii k ++ str_lit ": " ++ sx) :: srest)
                   end
               end
           end) d
      with
      | Raise e => Raise e
      | Ok parts => Ok (str_lit "{" ++ join (str_lit ", ") parts ++ str_lit "}")
      end
  | VOpaque o => dumps_opaque o
  end.

(** The loop over the items of a dict, on its own. *)
Fixpoint dumps_fields (d : list (str * value O)) : outcome (list str) :=
  match d with
  | [] => Ok []
  | (k, x) :: rest =>
      match json_dumps x with
      | Raise e => Raise e
      | Ok sx =>
          match dumps_fields rest with
          | Raise e => Raise e
          | Ok srest =>
              Ok ((encode_basestring_ascii k ++ str_lit ": " ++ sx) :: srest)
          end
      end
  end.
End Dumps.

(** A dict whose values are all strings. *)
Definition string_dict {O} (fields : list (str * str)) : value O :=
  VDict (map (fun kv => (fst kv, VStr (snd kv))) fields).

(** ** str.encode("utf-8") *)

Definition byte_of_N (n : N) : byte :=
  match Byte.of_N (n mod 256) with
  | Some b => b
  | None => x00
  end.

Definition byte_of_Z (z : Z) : byte := byte_of_N (Z.to_N (z mod 256)).

(** The UTF-8 bytes of one code point; a surrogate cannot be encoded. *)
Definition utf8_char (c : N) : option bytes :=
  (if c <? 128 then Some [byte_of_N c]
   else if c <? 2048 then
     Some [byte_of_N (192 + N.shiftr c 6); byte_of_N (128 + c mod 64)]
   else if (55296 <=? c) && (c <=? 57343) then None
   else if c <? 65536 then
     Some [byte_of_N (224 + N.shiftr c 12);
           byte_of_N (128 + N.shiftr c 6 mod 64);
           byte_of_N (128 + c mod 64)]
   else if c <? 1114112 then
     Some [byte_of_N (240 + N.shiftr c 18);
           byte_of_N (128 + N.shiftr c 12 mod 64);
           byte_of_N (128 + N.shiftr c 6 mod 64);
           byte_of_N (128 + c mod 64)]
   else None)%N.

Fixpoint encode_utf8 (s : str) : outcome bytes :=
  match s with
  | [] => Ok []
  | c :: rest =>
      match utf8_char c with
      | None => Raise (mkExn UnicodeEncodeError (str_lit "surrogates not allowed"))
      | Some bs =>
          match encode_utf8 rest with
          | Raise e => Raise e
          | Ok brest => Ok (bs ++ brest)
          end
      end
  end.

(** ** int.to_bytes and int.from_bytes, big-endian *)

Fixpoint to_bytes_big (width : nat) (n : Z) : bytes :=
  match width with
  | O => []
  | S w => to_bytes_big w (n / 256) ++ [byte_of_Z n]
  end.

Definition overflow_error : exn :=
  mkExn OverflowError (str_lit "int too big to convert").

(** [n.to_bytes(width, "big")] for [n >= 0]: [OverflowError] when the
    integer does not fit. *)
Definition int_to_bytes (n : Z) (width : nat) : outcome bytes :=
  if n <? 256 ^ Z.of_nat width then Ok (to_bytes_big width n)
  else Raise overflow_error.

Definition int_from_bytes (bs : bytes) : Z :=
  fold_left (fun acc b => acc * 256 + Z.of_N (Byte.to_N b)) bs 0.

(** The bytes of [{"type": "error", "error": text}] as [json.dumps] and
    [encode("utf-8")] produce them. *)
Definition error_payload (text : str) : bytes :=
  map byte_of_N
      (object_text [(str_lit "type", str_lit "error"); (str_lit "error", text)]).

(** A frame on the wire: the payload behind its 4-byte big-endian length. *)
Definition frame (payload : bytes) : bytes :=
  to_bytes_big 4 (len payload) ++ payload.

(** ** numpy: int16 samples and their float32 normalisation *)

(** IEEE binary32, as [np.float32]. *)
Definition float32 := spec_float.

Definition f32_of_int (z : Z) : float32 := binary_normalize 24 128 z 0 false.

Definition f32_32768 : float32 := binary_normalize 24 128 32768 0 false.

Definition f32_div (x y : float32) : float32 := SFdiv 24 128 x y.

(** One little-endian two's-complement 16-bit sample. *)
Definition int16_of_bytes (lo hi : byte) : Z :=
  let u := Z.of_N (Byte.to_N lo) + 256 * Z.of_N (Byte.to_N hi) in
  if u <? 32768 then u else u - 65536.

(** [np.frombuffer(buf, dtype=np.int16)]: a buffer of odd size is refused. *)
Fixpoint frombuffer_int16 (buf : bytes) : outcome (list Z) :=
  match buf with
  | [] => Ok []
  | [_] =>
      Raise (mkExn ValueError
               (str_lit "buffer size must be a multiple of element size"))
  | lo :: hi :: rest =>
      match frombuffer_int16 rest with
      | Raise e => Raise e
      | Ok samples => Ok (int16_of_bytes lo hi :: samples)
      end
  end.

(** [x.astype(np.float32) / 32768.0] on one sample. *)
Definition normalize_sample (s : Z) : float32 := f32_div (f32_of_int s) f32_32768.

(** The real number a finite float32 stands for. *)
Definition f32_value (x : float32) : option Q :=
  match x with
  | S754_zero _ => Some (0 # 1)
  | S754_finite sign m e =>
      Some (Qmult (inject_Z (if sign then Z.neg m else Z.pos m)) (Qpower (2 # 1) e))
  | _ => None
  end.

(** What is checked of the normalisation of one sample: the result lies
    between -1.0 and 1.0 and is exactly [s / 32768]. *)
Definition sample_ok (s : Z) : bool :=
  let x := normalize_sample s in
  SFleb (f32_of_int (-1)) x && SFleb x (f32_of_int 1) &&
  match f32_value x with
  | Some q => Qeq_bool q (s # 32768)
  | None => false
  end.

(** [p] on every integer from [base * 2^k] up to [(base + 1) * 2^k - 1]. *)
Fixpoint forall_below (k : nat) (base : Z) (p : Z -> bool) : bool :=
  match k with
  | O => p base
  | S k' => forall_below k' (2 * base) p && forall_below k' (2 * base + 1) p
  end.

(** ** The libraries around the script *)

(** What [model.generate] hands back, as far as the script looks at it: for a
    list, the outcome of [output[0]["text"]]; for anything else,
    [str(output)]. *)
Inductive gen_output (O : Type) :=
| OutputList (first_text : outcome (value O))
| OutputOther (text : str).
Arguments OutputList {O} first_text.
Arguments OutputOther {O} text.

Class Platform := {
  (** numbers and every object that is not None, bool, str, list or dict *)
  opaque : Type;
  (** a restored SALMModel *)
  Model : Type;
  (** pathlib.Path *)
  Path : Type;
  (** the state of the machine outside the process: files, the accelerator *)
  Env : Type;
  (** json.loads on the payload bytes *)
  json_loads : bytes -> outcome (value opaque);
  (** json.dumps on an opaque object: a number's text, else its TypeError *)
  dumps_opaque : opaque -> outcome str;
  (** str(v) for numbers, containers and other objects *)
  format_other : value opaque -> str;
  (** type(o).__name__ *)
  type_name_opaque : opaque -> str;
  Path_of_str : str -> Path;
  (** the text of the TypeError that Path(v) raises on a non-string *)
  Path_type_error : value opaque -> str;
  (** str(path) *)
  Path_str : Path -> str;
  (** torch.backends.mps.is_available() *)
  mps_is_available : Env -> bool;
  (** SALMModel.restore_from(ckpt, map_location=device) *)
  restore_from : str -> str -> Env -> outcome Model * Env;
  (** model.freeze() *)
  freeze : Model -> Env -> outcome unit * Env;
  (** path.read_bytes() *)
  read_bytes : Path -> Env -> outcome bytes * Env;
  (** torch.from_numpy(audio).unsqueeze(0).to(device): the same samples as a
      tensor of shape (1, n), unless the transfer raises *)
  to_device : list float32 -> str -> Env -> outcome unit * Env;
  (** model.generate(audio_signal=tensor, signal_length=torch.tensor([n]))
      under torch.inference_mode() *)
  generate : Model -> list float32 -> Z -> Env -> outcome (gen_output opaque) * Env
}.

Section Worker.
Context `{P : Platform}.

Definition message := value opaque.

(** A call into PyTorch, NeMo or the file system, as recorded in [calls]. *)
Inductive call :=
| CallRestoreFrom (ckpt device : str)
| CallFreeze (m : Model)
| CallReadBytes (p : Path)
| CallToDevice (audio : list float32) (device : str)
| CallGenerate (m : Model) (audio : list float32) (signal_length : Z).

(** The process's surroundings: what is left to read on stdin (all the host
    sends before it closes the pipe), what was written to stdout, the
    machine, and the library calls made so far. *)
Record world := mkWorld {
  stdin : bytes;
  stdout : bytes;
  env : Env;
  calls : list call
}.

(** A library call: runs on the machine state and is recorded. *)
Definition external {A} (c : call) (f : Env -> outcome A * Env) : M world A :=
  fun w =>
    let (o, e) := f (env w) in
    (o, mkWorld (stdin w) (stdout w) e (calls w ++ [c])).

(** [sys.stdin.buffer.read(n)]: blocks until [n] bytes or the end of the
    stream, so it is short only when the stream closed. *)
Definition stdin_read (n : Z) : M world bytes :=
  fun w =>
    if len (stdin w) <=? n then
      (Ok (stdin w), mkWorld [] (stdout w) (env w) (calls w))
    else
      (Ok (firstn (Z.to_nat n) (stdin w)),
       mkWorld (skipn (Z.to_nat n) (stdin w)) (stdout w) (env w) (calls w)).

Definition stdout_write (data : bytes) : M world unit :=
  fun w => (Ok tt, mkWorld (stdin w) (stdout w ++ data) (env w) (calls w)).

(** [sys.stdout.flush()]: [stdout] already holds what the host will see. *)
Definition stdout_flush : M world unit := ret tt.

(** *** Framing *)

Definition read_message : M world message :=
  header <- stdin_read 4 ;;
  if len header <? 4 then raise (mkExn EOFError [])
  else
    let length := int_from_bytes header in
    payload <- stdin_read length ;;
    if negb (len payload =? length) then raise (mkExn EOFError [])
    else lift_outcome (json_loads payload).

Definition write_message (msg : message) : M world unit :=
  text <- lift_outcome (json_dumps dumps_opaque msg) ;;
  encoded <- lift_outcome (encode_utf8 text) ;;
  header <- lift_outcome (int_to_bytes (len encoded) 4) ;;
  stdout_write header ;;;
  stdout_write encoded ;;;
  stdout_flush.

(** The payload [write_message] computes for a message, and the frame it
    puts on the wire. *)
Definition payload_of (msg : message) : outcome bytes :=
  match json_dumps dumps_opaque msg with
  | Ok text => encode_utf8 text
  | Raise e => Raise e
  end.

(** *** CanaryRuntime *)

Record RuntimeConfig := mkConfig { model_path : Path; device : str }.

Record CanaryRuntime := mkRuntime {
  _config : RuntimeConfig;
  _model : option Model
}.

(** The state a method runs in: the object and the world. *)
Definition proc : Type := CanaryRuntime * world.

Definition lift_io {A} (m : M world A) : M proc A :=
  fun s => let (o, w) := m (snd s) in (o, (fst s, w)).

Definition get_self : M proc CanaryRuntime := fun s => (Ok (fst s), s).

Definition set_model (m : option Model) : M proc unit :=
  fun s => (Ok tt, (mkRuntime (_config (fst s)) m, snd s)).

Definition CanaryRuntime_init (config : RuntimeConfig) : M world CanaryRuntime :=
  if negb (str_eqb (device config) (str_lit "mps")) then
    raise (mkExn RuntimeError (str_lit "This build only supports the MPS backend"))
  else
    fun w =>
      if negb (mps_is_available (env w)) then
        (Raise (mkExn RuntimeError (str_lit "MPS backend not available")), w)
      else (Ok (mkRuntime config None), w).

Definition CanaryRuntime_load : M proc unit :=
  self <- get_self ;;
  match _model self with
  | Some _ => ret tt
  | None =>
      let ckpt := Path_str (model_path (_config self)) in
      let dev := device (_config self) in
      m <- lift_io (external (CallRestoreFrom ckpt dev) (restore_from ckpt dev)) ;;
      set_model (Some m) ;;;
      lift_io (external (CallFreeze m) (freeze m))
  end.

Definition CanaryRuntime_transcribe (wav_path : Path)
    : M proc (list (str * message)) :=
  self <- get_self ;;
  match _model self with
  | None => raise (mkExn RuntimeError (str_lit "Model not loaded"))
  | Some m =>
      let dev := device (_config self) in
      buf <- lift_io (external (CallReadBytes wav_path) (read_bytes wav_path)) ;;
      samples <- lift_outcome (frombuffer_int16 buf) ;;
      let audio := map normalize_sample samples in
      lift_io (external (CallToDevice audio dev) (to_device audio dev)) ;;;
      output <- lift_io (external (CallGenerate m audio (len audio))
                                  (generate m audio (len audio))) ;;
      text <- match output with
              | OutputList first_text => lift_outcome first_text
              | OutputOther s => ret (VStr s)
              end ;;
      ret [(str_lit "text", text)]
  end.

(** A computation that leaves the runtime object and both streams as they
    were (it may call libraries and change the machine). *)
Definition keeps_channel {A} (m : M proc A) : Prop :=
  forall s,
    fst (snd (m s)) = fst s /\
    stdin (snd (snd (m s))) = stdin (snd s) /\
    stdout (snd (snd (m s))) = stdout (snd s).

(** *** main *)

(** [d[key]] for the literal keys the script uses; [str(KeyError(key))] is
    the key between single quotes. *)
Definition getitem (d : list (str * message)) (key : str) : outcome message :=
  match dict_lookup key d with
  | Some v => Ok v
  | None => Raise (mkExn KeyError ([39%N] ++ key ++ [39%N]))
  end.

(** [Path(v)]. *)
Definition Path_new (v : message) : outcome Path :=
  match v with
  | VStr s => Ok (Path_of_str s)
  | _ => Raise (mkExn TypeError (Path_type_error v))
  end.

(** [f"{v}"]. *)
Definition format_value (v : message) : str :=
  match v with
  | VStr s => s
  | VNone => str_lit "None"
  | VBool true => str_lit "True"
  | VBool false => str_lit "False"
  | _ => format_other v
  end.

Definition type_name (v : message) : str :=
  match v with
  | VNone => str_lit "NoneType"
  | VBool _ => str_lit "bool"
  | VStr _ => str_lit "str"
  | VList _ => str_lit "list"
  | VDict _ => str_lit "dict"
  | VOpaque o => type_name_opaque o
  end.

Definition msg_ready : message := VDict [(str_lit "type", VStr (str_lit "ready"))].

Definition msg_shutdown : message :=
  VDict [(str_lit "type", VStr (str_lit "shutdown"))].

Definition msg_fatal (text : str) : message :=
  VDict [(str_lit "type", VStr (str_lit "fatal")); (str_lit "error", VStr text)].

Definition msg_error (text : str) : message :=
  VDict [(str_lit "type", VStr (str_lit "error")); (str_lit "error", VStr text)].

Definition msg_result (text : message) : message :=
  VDict [(str_lit "type", VStr (str_lit "result")); (str_lit "text", text)].

(** The [try] block of a transcribe request (lines 113-115). *)
Definition handle_transcribe (d : list (str * message)) : M proc unit :=
  p <- lift_outcome (getitem d (str_lit "path")) ;;
  wav_path <- lift_outcome (Path_new p) ;;
  result <- CanaryRuntime_transcribe wav_path ;;
  text <- lift_outcome (getitem result (str_lit "text")) ;;
  lift_io (write_message (msg_result text)).

(** The body of the [while True] loop after a message was read (lines
    107-119); the result says whether the loop goes on. *)
Definition dispatch (msg : message) : M proc bool :=
  match msg with
  | VDict d =>
      let command := dict_get (str_lit "command") d in
      if value_eq_str command (str_lit "shutdown") then
        lift_io (write_message msg_shutdown) ;;;
        ret false
      else if value_eq_str command (str_lit "transcribe") then
        try_except (handle_transcribe d) is_Exception
          (fun exc => lift_io (write_message (msg_error (exn_str exc)))) ;;;
        ret true
      else
        lift_io (write_message
                   (msg_error (str_lit "Unknown command " ++ format_value command))) ;;;
        ret true
  | _ =>
      raise (mkExn AttributeError
               ([39%N] ++ type_name msg ++ str_lit "' object has no attribute 'get'"))
  end.

(** The [while True] loop.  Every round that goes on has consumed a frame,
    so [fuel] above the length of stdin is never used up; the result is
    [true] when the loop ended by [break], [false] when fuel ran out. *)
Fixpoint serve (fuel : nat) : M proc bool :=
  match fuel with
  | O => ret false
  | S fuel' =>
      received <- try_except
                    (msg <- lift_io read_message ;; ret (Some msg))
                    is_EOFError
                    (fun _ => ret None) ;;
      match received with
      | None => ret true
      | Some msg =>
          again <- dispatch msg ;;
          if again then serve fuel' else ret true
      end
  end.

(** Lines 94-99: load, then the handshake; [false] after a reported
    failure. *)
Definition startup : M proc bool :=
  try_except
    (CanaryRuntime_load ;;;
     lift_io (write_message msg_ready) ;;;
     ret true)
    is_Exception
    (fun exc =>
       lift_io (write_message (msg_fatal (exn_str exc))) ;;;
       ret false).

(** How [main] ends: it returns a status, or an exception leaves it. *)
Inductive exit :=
| Returned (code : Z)
| Uncaught (e : exn)
| OutOfFuel.

(** [main], from the parsed arguments on. *)
Definition main (args : RuntimeConfig) (w : world) : exit * world :=
  match CanaryRuntime_init args w with
  | (Raise e, w1) => (Uncaught e, w1)
  | (Ok runtime, w1) =>
      match startup (runtime, w1) with
      | (Raise e, s2) => (Uncaught e, snd s2)
      | (Ok false, s2) => (Returned 1, snd s2)
      | (Ok true, s2) =>
          match serve (S (List.length (stdin (snd s2)))) s2 with
          | (Raise e, s3) => (Uncaught e, snd s3)
          | (Ok true, s3) => (Returned 0, snd s3)
          | (Ok false, s3) => (OutOfFuel, snd s3)
          end
      end
  end.

(** The status of the process under [sys.exit(main(...))]: an exception
    that leaves [main] ends the interpreter with status 1. *)
Definition exit_status (r : exit) : option Z :=
  match r with
  | Returned code => Some code
  | Uncaught e => if is_Exception e then Some 1 else None
  | OutOfFuel => None
  end.

End Worker.

(** ** A concrete platform

    A small machine to run the worker on: files are an association list, the
    model is restored when its checkpoint exists, inference answers with the
    number of samples it was given, and the JSON decoder knows a finite
    vocabulary of payloads, each the encoding of a value. *)
Module Demo.

Record machine := mkMachine {
  files : list (str * bytes);
  mps : bool
}.

Fixpoint find_file (name : str) (fs : list (str * bytes)) : option bytes :=
  match fs with
  | [] => None
  | (n, data) :: rest => if str_eqb n name then Some data else find_file name rest
  end.

Definition no_such_file (name : str) : exn :=
  mkExn (OtherException "FileNotFoundError")
        (str_lit "[Errno 2] No such file or directory: '" ++ name ++ str_lit "'").

Definition not_serializable : exn :=
  mkExn TypeError (str_lit "Object of type Tensor is not JSON serializable").

Definition encode (v : value unit) : option bytes :=
  match json_dumps (fun _ => Raise not_serializable) v with
  | Ok text => match encode_utf8 text with Ok b => Some b | Raise _ => None end
  | Raise _ => None
  end.

Definition bytes_eqb (a b : bytes) : bool :=
  if list_eq_dec Byte.byte_eq_dec a b then true else false.

Definition command (name : str) : value unit :=
  VDict [(str_lit "command", VStr name)].

Definition transcribe_request (path : str) : value unit :=
  VDict [(str_lit "command", VStr (str_lit "transcribe")); (str_lit "path", VStr path)].

(** The payloads the decoder accepts. *)
Definition vocabulary : list (value unit) :=
  [ command (str_lit "shutdown");
    command (str_lit "frobnicate");
    transcribe_request (str_lit "/tmp/a.pcm");
    transcribe_request (str_lit "/tmp/missing.pcm");
    transcribe_request (str_lit "/tmp/odd.pcm");
    VDict [(str_lit "path", VStr (str_lit "/tmp/a.pcm"))];
    VList [] ].

Fixpoint decode_in (vs : list (value unit)) (payload : bytes) : outcome (value unit) :=
  match vs with
  | [] => Raise (mkExn JSONDecodeError (str_lit "Expecting value"))
  | v :: rest =>
      match encode v with
      | Some b => if bytes_eqb b payload then Ok v else decode_in rest payload
      | None => decode_in rest payload
      end
  end.

Definition platform : Platform := {|
  opaque := unit;
  Model := unit;
  Path := str;
  Env := machine;
  json_loads := decode_in vocabulary;
  dumps_opaque := fun _ => Raise not_serializable;
  format_other := fun _ => str_lit "<object>";
  type_name_opaque := fun _ => str_lit "Tensor";
  Path_of_str := fun s => s;
  Path_type_error := fun _ => str_lit "expected str, bytes or os.PathLike object";
  Path_str := fun p => p;
  mps_is_available := mps;
  restore_from := fun ckpt _ e =>
    match find_file ckpt (files e) with
    | Some _ => (Ok tt, e)
    | None => (Raise (no_such_file ckpt), e)
    end;
  freeze := fun _ e => (Ok tt, e);
  read_bytes := fun p e =>
    match find_file p (files e) with
    | Some data => (Ok data, e)
    | None => (Raise (no_such_file p), e)
    end;
  to_device := fun _ _ e => (Ok tt, e);
  generate := fun _ audio n e =>
    (Ok (OutputList (Ok (VStr (repeat 115%N (List.length audio))))), e)
|}.

Definition frame_of (v : value unit) : bytes :=
  match encode v with
  | Some b => frame b
  | None => []
  end.

Definition zeros (n : nat) : bytes := repeat x00 n.

Definition machine0 : machine :=
  mkMachine [ (str_lit "/models/canary.nemo", []);
              (str_lit "/tmp/a.pcm", zeros 32);
              (str_lit "/tmp/odd.pcm", zeros 3) ] true.

Definition config0 : @RuntimeConfig platform :=
  @mkConfig platform (str_lit "/models/canary.nemo") (str_lit "mps").

Definition world0 (input : bytes) : @world platform :=
  @mkWorld platform input [] machine0 [].

Definition loaded : @CanaryRuntime platform :=
  @mkRuntime platform config0 (Some tt).

Definition unloaded : @CanaryRuntime platform :=
  @mkRuntime platform config0 None.

Definition payload_or_nil (v : value unit) : bytes :=
  match encode v with
  | Some b => b
  | None => []
  end.

(** Three samples: the least int16, the greatest, and 1. *)
Definition pcm3 : bytes := [x00; x80; xff; x7f; x01; x00].

Definition machine1 : machine :=
  mkMachine [ (str_lit "/models/canary.nemo", []);
              (str_lit "/tmp/b.pcm", pcm3) ] true.


(** 2^30 times the letter e with an acute accent (U+00E9): two bytes each
    in UTF-8, so a request that carries it fits a frame; six characters
    each once [json.dumps] has escaped them, so a reply that carries it
    does not. *)
Definition long_name : str := repeat 233%N (Z.to_nat 1073741824).

End Demo.

(** ** Vocabulary for the properties of the whole run *)

(** Several frames in a row, as they follow each other on a stream. *)
Definition frames (payloads : list bytes) : bytes := List.concat (map frame payloads).

(** A payload that fits the 4-byte length of a frame. *)
Definition fits (payload : bytes) : Prop := len payload < 2 ^ 32.

(** The bytes of the replies that hold no request data. *)
Definition ready_payload : bytes :=
  map byte_of_N (object_text [(str_lit "type", str_lit "ready")]).

Definition shutdown_payload : bytes :=
  map byte_of_N (object_text [(str_lit "type", str_lit "shutdown")]).

(** The bytes of [{"type": "fatal", "error": text}]. *)
Definition fatal_payload (text : str) : bytes :=
  map byte_of_N
      (object_text [(str_lit "type", str_lit "fatal"); (str_lit "error", text)]).

(** The bytes of [{"type": "result", "text": text}] for a string. *)
Definition result_payload (text : str) : bytes :=
  map byte_of_N
      (object_text [(str_lit "type", str_lit "result"); (str_lit "text", text)]).

(** The ValueError of [np.frombuffer] on a buffer of odd size. *)
Definition odd_buffer_error : exn :=
  mkExn ValueError (str_lit "buffer size must be a multiple of element size").

(** What is checked of the normalisation at the ends of the range: the
    result is below 1.0, and it is -1.0 for the least int16 only. *)
Definition sample_edges_ok (s : Z) : bool :=
  let x := normalize_sample s in
  SFltb x (f32_of_int 1) &&
  Bool.eqb (SFeqb x (f32_of_int (-1))) (s =? -32768).

Section RunVocabulary.
Context `{P : Platform}.

(** What a step of the loop may do to the process: the runtime and stdin
    stay, stdout gains one whole frame when the step completes and nothing
    when it raises. *)
Definition one_reply {A} (s : proc) (r : outcome A * proc) : Prop :=
  fst (snd r) = fst s /\
  stdin (snd (snd r)) = stdin (snd s) /\
  match fst r with
  | Ok _ => exists payload,
      fits payload /\ stdout (snd (snd r)) = stdout (snd s) ++ frame payload
  | Raise _ => stdout (snd (snd r)) = stdout (snd s)
  end.

(** A run that only appended whole frames to stdout. *)
Definition appends_frames (before after : bytes) : Prop :=
  exists payloads, Forall fits payloads /\ after = before ++ frames payloads.

(** Lines 23-31, run when the module is loaded: [imported] is the outcome of
    the two import statements and [repr] is Python's [repr] of an exception.
    A failure is reported with [print], which writes the JSON text and a
    newline to stdout, and is raised again. *)
Definition import_guard (imported : outcome unit) (repr : exn -> str)
    : M world unit :=
  match imported with
  | Ok _ => ret tt
  | Raise exc =>
      if is_Exception exc then
        text <- lift_outcome
                  (json_dumps dumps_opaque
                     (msg_fatal (str_lit "Failed to import PyTorch/NeMo: " ++ repr exc))) ;;
        line <- lift_outcome (encode_utf8 (text ++ [10%N])) ;;
        stdout_write line ;;;
        stdout_flush ;;;
        raise exc
      else raise exc
  end.

(** The text that [transcribe] reads off what [generate] returned (line 64):
    [output[0]["text"]] for a list, [str(output)] for anything else. *)
Definition output_text (out : gen_output opaque) : outcome message :=
  match out with
  | OutputList first_text => first_text
  | OutputOther s => Ok (VStr s)
  end.

End RunVocabulary.

(** ** A platform whose model cannot be frozen *)
Module Faulty.

Definition out_of_memory : exn :=
  mkExn RuntimeError (str_lit "MPS backend out of memory").

(** The concrete platform of [Demo], except that [freeze] raises. *)
Definition platform : Platform := {|
  opaque := unit;
  Model := unit;
  Path := str;
  Env := Demo.machine;
  json_loads := @json_loads Demo.platform;
  dumps_opaque := @dumps_opaque Demo.platform;
  format_other := @format_other Demo.platform;
  type_name_opaque := @type_name_opaque Demo.platform;
  Path_of_str := @Path_of_str Demo.platform;
  Path_type_error := @Path_type_error Demo.platform;
  Path_str := @Path_str Demo.platform;
  mps_is_available := @mps_is_available Demo.platform;
  restore_from := @restore_from Demo.platform;
  freeze := fun _ e => (Raise out_of_memory, e);
  read_bytes := @read_bytes Demo.platform;
  to_device := @to_device Demo.platform;
  generate := @generate Demo.platform
|}.

End Faulty.

(** ** A platform whose checkpoint arrives late *)
Module Flaky.

(** A model is the name of the checkpoint it was restored from, and the
    machine is a flag that says whether the checkpoint is in place.
    [restore_from] raises on a machine where it is not, and the checkpoint
    is in place from then on (a first attempt that starts a download which
    the second attempt finds finished).  Nothing else depends on the
    machine; [generate] answers with the name of the model. *)
Definition platform : Platform := {|
  opaque := unit;
  Model := str;
  Path := str;
  Env := bool;
  json_loads := @json_loads Demo.platform;
  dumps_opaque := @dumps_opaque Demo.platform;
  format_other := @format_other Demo.platform;
  type_name_opaque := @type_name_opaque Demo.platform;
  Path_of_str := fun s => s;
  Path_type_error := @Path_type_error Demo.platform;
  Path_str := fun p => p;
  mps_is_available := fun _ => true;
  restore_from := fun ckpt _ present =>
    if present then (Ok ckpt, true) else (Raise (Demo.no_such_file ckpt), true);
  freeze := fun _ e => (Ok tt, e);
  read_bytes := fun p e => (Raise (Demo.no_such_file p), e);
  to_device := fun _ _ e => (Ok tt, e);
  generate := fun m _ _ e => (Ok (OutputOther m), e)
|}.

Definition config0 : @RuntimeConfig platform :=
  @mkConfig platform (str_lit "/models/canary.nemo") (str_lit "mps").

(** Nothing on either stream and no call made yet. *)
Definition world0 (present : bool) : @world platform :=
  @mkWorld platform [] [] present [].

End Flaky.

(** Closes a goal that holds by running the definitions. *)
Ltac run := first [reflexivity | vm_compute; reflexivity].

(** * Properties *)

(** ** Bytes and big-endian integers *)

Lemma to_N_byte_of_N (n : N) : Byte.to_N (byte_of_N n) = (n mod 256)%N.
Proof.
  unfold byte_of_N.
  destruct (Byte.of_N (n mod 256)) as [b|] eqn:E.
  - now apply Byte.to_of_N.
  - apply Byte.of_N_None_iff in E.
    pose proof (N.mod_lt n 256). lia.
Qed.

Lemma to_N_byte_of_Z (z : Z) : Z.of_N (Byte.to_N (byte_of_Z z)) = z mod 256.
Proof.
  unfold byte_of_Z. rewrite to_N_byte_of_N.
  pose proof (Z.mod_pos_bound z 256).
  rewrite N.mod_small; lia.
Qed.

Lemma to_bytes_big_length (width : nat) (n : Z) :
  List.length (to_bytes_big width n) = width.
Proof.
  revert n. induction width as [|w IH]; intros n; simpl.
  - reflexivity.
  - rewrite length_app, IH. simpl. lia.
Qed.

Lemma int_from_bytes_snoc (bs : bytes) (b : byte) :
  int_from_bytes (bs ++ [b]) = int_from_bytes bs * 256 + Z.of_N (Byte.to_N b).
Proof. unfold int_from_bytes. now rewrite fold_left_app. Qed.

Lemma int_from_bytes_nonneg (bs : bytes) : 0 <= int_from_bytes bs.
Proof.
  induction bs as [|b bs IH] using rev_ind.
  - unfold int_from_bytes; simpl; lia.
  - rewrite int_from_bytes_snoc. lia.
Qed.

(** [int.from_bytes] undoes [int.to_bytes] on every integer that fits. *)
Lemma int_from_to_bytes (width : nat) (n : Z) :
  0 <= n < 256 ^ Z.of_nat width ->
  int_from_bytes (to_bytes_big width n) = n.
Proof.
  revert n. induction width as [|w IH]; intros n Hn.
  - simpl in *. unfold int_from_bytes; simpl. lia.
  - cbn [to_bytes_big]. rewrite int_from_bytes_snoc, to_N_byte_of_Z.
    rewrite Nat2Z.inj_succ, Z.pow_succ_r in Hn by lia.
    rewrite IH.
    + pose proof (Z.div_mod n 256). lia.
    + split.
      * apply Z.div_pos; lia.
      * apply Z.div_lt_upper_bound; lia.
Qed.

Lemma len_app {A} (a b : list A) : len (a ++ b) = len a + len b.
Proof. unfold len. rewrite length_app. lia. Qed.

Lemma len_nonneg {A} (a : list A) : 0 <= len a.
Proof. unfold len. lia. Qed.

Lemma frame_header (payload : bytes) :
  len payload < 2 ^ 32 ->
  int_from_bytes (to_bytes_big 4 (len payload)) = len payload.
Proof.
  intros H. apply int_from_to_bytes.
  pose proof (len_nonneg payload). change (256 ^ Z.of_nat 4) with (2 ^ 32). lia.
Qed.

(** ** The output of [json.dumps] is ASCII *)

Lemma is_ascii_app (a b : str) : is_ascii (a ++ b) = is_ascii a && is_ascii b.
Proof. apply forallb_app. Qed.

Lemma hex_digit_ascii (n : N) : (hex_digit (n mod 16) <? 128)%N = true.
Proof.
  unfold hex_digit. pose proof (N.mod_lt n 16).
  destruct (N.ltb_spec (n mod 16) 10); apply N.ltb_lt; lia.
Qed.

Lemma hex4_ascii (n : N) : is_ascii (hex4 n) = true.
Proof.
  unfold hex4, is_ascii. cbn [forallb].
  now rewrite !hex_digit_ascii.
Qed.

Lemma escape_char_ascii (c : N) : is_ascii (escape_char c) = true.
Proof.
  unfold escape_char.
  repeat match goal with
         | |- context [if ?b then _ else _] => destruct b eqn:?
         end;
    try reflexivity.
  - unfold is_ascii. cbn [forallb]. rewrite andb_true_r.
    apply andb_true_iff in Heqb6 as [_ H]. apply N.leb_le in H. apply N.ltb_lt. lia.
  - change (is_ascii (hex4 c) = true). apply hex4_ascii.
  - cbv zeta. rewrite is_ascii_app.
    change (is_ascii (hex4 (N.lor 55296 (N.land (N.shiftr (c - 65536) 10) 1023)))
            && is_ascii (hex4 (N.lor 56320 (N.land (c - 65536) 1023))) = true).
    now rewrite !hex4_ascii.
Qed.

Lemma flat_map_escape_ascii (s : str) : is_ascii (flat_map escape_char s) = true.
Proof.
  induction s as [|c s IH]; simpl; [reflexivity|].
  now rewrite is_ascii_app, escape_char_ascii, IH.
Qed.

Lemma encode_basestring_ascii_is_ascii (s : str) :
  is_ascii (encode_basestring_ascii s) = true.
Proof.
  unfold encode_basestring_ascii.
  change (is_ascii ([dquote] ++ flat_map escape_char s ++ [dquote]) = true).
  now rewrite !is_ascii_app, flat_map_escape_ascii.
Qed.

(** On ASCII text, [encode("utf-8")] cannot fail and keeps one byte per
    character. *)
Lemma encode_utf8_ascii (s : str) :
  is_ascii s = true -> encode_utf8 s = Ok (map byte_of_N s).
Proof.
  induction s as [|c s IH]; intros H; simpl in *.
  - reflexivity.
  - apply andb_true_iff in H as [Hc Hs].
    unfold utf8_char. rewrite Hc, (IH Hs). reflexivity.
Qed.

(** ** Encoding messages made of strings *)

Lemma join_ascii (sep : str) (parts : list str) :
  is_ascii sep = true ->
  forallb is_ascii parts = true ->
  is_ascii (join sep parts) = true.
Proof.
  intros Hsep. induction parts as [|p rest IH]; intros H; simpl in *.
  - reflexivity.
  - apply andb_true_iff in H as [Hp Hrest].
    destruct rest as [|q rest']; [assumption|].
    rewrite !is_ascii_app, Hp, Hsep. simpl. now apply IH.
Qed.

Lemma field_text_ascii (kv : str * str) : is_ascii (field_text kv) = true.
Proof.
  unfold field_text.
  now rewrite !is_ascii_app, !encode_basestring_ascii_is_ascii.
Qed.

Lemma object_text_ascii (fields : list (str * str)) :
  is_ascii (object_text fields) = true.
Proof.
  unfold object_text. rewrite !is_ascii_app.
  rewrite join_ascii; [reflexivity..|].
  induction fields as [|kv rest IH]; [reflexivity|].
  cbn [map forallb]. now rewrite field_text_ascii, IH.
Qed.

Lemma json_dumps_dict {O} (D : O -> outcome str) (d : list (str * value O)) :
  json_dumps D (VDict d) =
  match dumps_fields D d with
  | Raise e => Raise e
  | Ok parts => Ok (str_lit "{" ++ join (str_lit ", ") parts ++ str_lit "}")
  end.
Proof.
  cbn [json_dumps].
  match goal with
  | |- match ?F d with _ => _ end = _ =>
      enough (E : forall d', F d' = dumps_fields D d') by now rewrite E
  end.
  induction d' as [|[k x] rest IH]; [reflexivity|].
  cbn [dumps_fields]. rewrite <- IH. reflexivity.
Qed.

Lemma dumps_fields_strings {O} (D : O -> outcome str) (fields : list (str * str)) :
  dumps_fields D (map (fun kv => (fst kv, VStr (snd kv))) fields) =
  Ok (map field_text fields).
Proof.
  induction fields as [|[k v] rest IH]; [reflexivity|].
  cbn [map dumps_fields fst snd json_dumps]. rewrite IH. reflexivity.
Qed.

(** [json.dumps] on a dict of strings is total and gives [object_text]. *)
Lemma json_dumps_string_dict {O} (D : O -> outcome str) (fields : list (str * str)) :
  json_dumps D (string_dict fields) = Ok (object_text fields).
Proof.
  unfold string_dict. rewrite json_dumps_dict, dumps_fields_strings. reflexivity.
Qed.

Lemma escape_char_nonempty (c : N) : (1 <= List.length (escape_char c))%nat.
Proof.
  unfold escape_char.
  repeat match goal with
         | |- context [if ?b then _ else _] => destruct b
         end;
    cbv zeta; rewrite ?length_app; simpl; lia.
Qed.

Lemma flat_map_escape_length (s : str) :
  (List.length s <= List.length (flat_map escape_char s))%nat.
Proof.
  induction s as [|c s IH]; simpl; [lia|].
  rewrite length_app. pose proof (escape_char_nonempty c). lia.
Qed.

Lemma flat_map_repeat_length {A B} (f : A -> list B) (a : A) (n : nat) :
  List.length (flat_map f (repeat a n)) = (n * List.length (f a))%nat.
Proof.
  induction n as [|n IH]; simpl; [reflexivity|].
  rewrite length_app, IH. lia.
Qed.

Section WorkerFacts.
Context `{P : Platform}.

(** The payload of a message made of strings. *)
Lemma payload_of_string_dict (fields : list (str * str)) :
  payload_of (string_dict fields) = Ok (map byte_of_N (object_text fields)).
Proof.
  unfold payload_of. rewrite json_dumps_string_dict.
  apply encode_utf8_ascii, object_text_ascii.
Qed.

Lemma msg_error_string_dict (text : str) :
  msg_error text =
  string_dict [(str_lit "type", str_lit "error"); (str_lit "error", text)].
Proof. reflexivity. Qed.

Lemma msg_fatal_string_dict (text : str) :
  msg_fatal text =
  string_dict [(str_lit "type", str_lit "fatal"); (str_lit "error", text)].
Proof. reflexivity. Qed.

Lemma msg_result_string_dict (text : str) :
  msg_result (VStr text) =
  string_dict [(str_lit "type", str_lit "result"); (str_lit "text", text)].
Proof. reflexivity. Qed.

(** *** write_message *)

Lemma write_message_ok (msg : message) (payload : bytes) (w : world) :
  payload_of msg = Ok payload ->
  len payload < 2 ^ 32 ->
  write_message msg w =
  (Ok tt, mkWorld (stdin w) (stdout w ++ frame payload) (env w) (calls w)).
Proof.
  intros Hp Hlen. unfold payload_of in Hp.
  unfold write_message, bind, lift_outcome, stdout_write, stdout_flush, ret.
  destruct (json_dumps dumps_opaque msg) as [text|e]; [|discriminate].
  rewrite Hp. unfold int_to_bytes.
  change (256 ^ Z.of_nat 4) with (2 ^ 32).
  apply Z.ltb_lt in Hlen. rewrite Hlen. cbn [stdin stdout env calls].
  unfold frame. now rewrite <- app_assoc.
Qed.

(** A payload of 2^32 bytes or more has no header: nothing is written and
    [OverflowError] leaves [write_message]. *)
Lemma write_message_overflow (msg : message) (payload : bytes) (w : world) :
  payload_of msg = Ok payload ->
  2 ^ 32 <= len payload ->
  write_message msg w =
  (Raise overflow_error, w).
Proof.
  intros Hp Hlen. unfold payload_of in Hp.
  unfold write_message, bind, lift_outcome.
  destruct (json_dumps dumps_opaque msg) as [text|e]; [|discriminate].
  rewrite Hp. unfold int_to_bytes.
  change (256 ^ Z.of_nat 4) with (2 ^ 32).
  apply Z.ltb_ge in Hlen. rewrite Hlen. reflexivity.
Qed.

Lemma write_message_raise (msg : message) (e : exn) (w : world) :
  payload_of msg = Raise e ->
  write_message msg w = (Raise e, w).
Proof.
  intros Hp. unfold payload_of in Hp.
  unfold write_message, bind, lift_outcome.
  destruct (json_dumps dumps_opaque msg) as [text|e']; [|congruence].
  rewrite Hp. reflexivity.
Qed.

(** Whatever happens, [write_message] touches only stdout, and when it
    raises it has written nothing. *)
Lemma write_message_cases (msg : message) (w : world) :
  (exists payload,
      write_message msg w =
      (Ok tt, mkWorld (stdin w) (stdout w ++ frame payload) (env w) (calls w)))
  \/ (exists e, write_message msg w = (Raise e, w)).
Proof.
  destruct (payload_of msg) as [payload|e] eqn:Hp.
  - destruct (Z.lt_ge_cases (len payload) (2 ^ 32)) as [Hlt|Hge].
    + left. exists payload. now apply write_message_ok.
    + right. eexists. now apply write_message_overflow with (payload := payload).
  - right. exists e. now apply write_message_raise.
Qed.

(** *** read_message *)

Lemma world_eta (w : world) : mkWorld (stdin w) (stdout w) (env w) (calls w) = w.
Proof. now destruct w. Qed.

Lemma stdin_read_prefix (data rest : bytes) (w : world) :
  stdin w = data ++ rest ->
  stdin_read (len data) w = (Ok data, mkWorld rest (stdout w) (env w) (calls w)).
Proof.
  intros Hin. unfold stdin_read. rewrite Hin, len_app.
  destruct (Z.leb_spec (len data + len rest) (len data)) as [Hle|Hgt].
  - pose proof (len_nonneg rest).
    assert (rest = []) as ->.
    { destruct rest; [reflexivity|]. unfold len in *. simpl in *. lia. }
    now rewrite app_nil_r.
  - unfold len. rewrite Nat2Z.id, firstn_app, skipn_app.
    rewrite Nat.sub_diag, firstn_all, skipn_all. simpl.
    now rewrite app_nil_r.
Qed.

(** A whole frame at the front of stdin is consumed and its payload is
    handed to the decoder. *)
Lemma read_message_frame (payload rest : bytes) (w : world) :
  len payload < 2 ^ 32 ->
  stdin w = frame payload ++ rest ->
  read_message w =
  (json_loads payload, mkWorld rest (stdout w) (env w) (calls w)).
Proof.
  intros Hlen Hin. unfold frame in Hin. rewrite <- app_assoc in Hin.
  unfold read_message, bind.
  assert (H4 : len (to_bytes_big 4 (len payload)) = 4).
  { unfold len at 1. now rewrite to_bytes_big_length. }
  rewrite <- H4 at 1.
  rewrite (stdin_read_prefix _ _ _ Hin). rewrite H4.
  change (4 <? 4) with false. cbv beta iota.
  rewrite (frame_header _ Hlen).
  rewrite (stdin_read_prefix payload rest); [|reflexivity].
  rewrite Z.eqb_refl. reflexivity.
Qed.

Lemma join_length_ge (sep p : str) (parts : list str) :
  In p parts -> (List.length p <= List.length (join sep parts))%nat.
Proof.
  induction parts as [|q rest IH]; intros Hin; [contradiction|].
  destruct Hin as [->|Hin].
  - destruct rest as [|r rest']; [simpl; lia|].
    change (join sep (p :: r :: rest')) with (p ++ sep ++ join sep (r :: rest')).
    rewrite !length_app. lia.
  - specialize (IH Hin). destruct rest as [|r rest']; [contradiction|].
    change (join sep (q :: r :: rest')) with (q ++ sep ++ join sep (r :: rest')).
    rewrite !length_app. lia.
Qed.

(** The payload of a dict of strings is at least as long as each of its
    escaped values. *)
Lemma object_text_length_ge (fields : list (str * str)) (k v : str) :
  In (k, v) fields -> len (flat_map escape_char v) <= len (object_text fields).
Proof.
  intros Hin. unfold object_text, len. rewrite !length_app.
  pose proof (join_length_ge (str_lit ", ") (field_text (k, v))
                (map field_text fields) (in_map field_text _ _ Hin)) as Hj.
  unfold field_text at 1 in Hj. cbn [fst snd] in Hj.
  unfold encode_basestring_ascii in Hj. rewrite !length_app in Hj.
  cbn [List.length] in Hj. rewrite !length_app in Hj.
  lia.
Qed.

Lemma write_message_string_dict_overflow
    (fields : list (str * str)) (k v : str) (w : world) :
  In (k, v) fields ->
  2 ^ 32 <= len (flat_map escape_char v) ->
  write_message (string_dict fields) w =
  (Raise overflow_error, w).
Proof.
  intros Hin Hlen.
  apply write_message_overflow with (payload := map byte_of_N (object_text fields)).
  - apply payload_of_string_dict.
  - pose proof (object_text_length_ge fields k v Hin).
    unfold len in *. rewrite length_map. lia.
Qed.

(** ** The claims *)


(** C4 (truncation safety): when stdin holds fewer than 4 bytes, or a
    header that announces more payload bytes than follow it, read_message
    raises EOFError whatever the decoder would make of the bytes, and the
    dispatch loop ends there: nothing is written, no library is called,
    the runtime is as it was. *)
Theorem C4_truncated_frame_ends_the_loop
    (rt : CanaryRuntime) (w : world) (fuel : nat) :
  len (stdin w) < 4 \/
  len (skipn 4 (stdin w)) < int_from_bytes (firstn 4 (stdin w)) ->
  read_message w =
  (Raise (mkExn EOFError []), mkWorld [] (stdout w) (env w) (calls w)) /\
  serve (S fuel) (rt, w) =
  (Ok true, (rt, mkWorld [] (stdout w) (env w) (calls w))).
Proof.
  intros Htrunc.
  assert (Hread : read_message w =
                  (Raise (mkExn EOFError []),
                   mkWorld [] (stdout w) (env w) (calls w))).
  { unfold read_message, bind, stdin_read at 1.
    destruct (Z.leb_spec (len (stdin w)) 4) as [Hle|Hgt].
    - destruct (Z.ltb_spec (len (stdin w)) 4) as [Hlt|Hge]; [reflexivity|].
      assert (Hfour : List.length (stdin w) = 4%nat) by (unfold len in *; lia).
      destruct Htrunc as [Hshort|Hpay]; [lia|].
      rewrite firstn_all2 in Hpay by lia.
      rewrite skipn_all2 in Hpay by lia.
      unfold stdin_read. cbn [stdin stdout env calls].
      change (len (@nil byte)) with 0 in *.
      destruct (Z.leb_spec 0 (int_from_bytes (stdin w))); [|lia].
      change (len (@nil byte)) with 0.
      destruct (Z.eqb_spec 0 (int_from_bytes (stdin w))); [lia|reflexivity].
    - destruct Htrunc as [Hshort|Hpay]; [lia|].
      change (Z.to_nat 4) with 4%nat.
      assert (Hhead : len (firstn 4 (stdin w)) = 4).
      { unfold len in *. rewrite length_firstn. lia. }
      rewrite Hhead. change (4 <? 4) with false. cbv beta iota.
      unfold stdin_read. cbn [stdin stdout env calls].
      destruct (Z.leb_spec (len (skipn 4 (stdin w)))
                  (int_from_bytes (firstn 4 (stdin w)))); [|lia].
      destruct (Z.eqb_spec (len (skipn 4 (stdin w)))
                  (int_from_bytes (firstn 4 (stdin w)))); [lia|reflexivity]. }
  split; [exact Hread|].
  cbn [serve]. unfold bind, try_except, lift_io. cbn [fst snd].
  rewrite Hread. reflexivity.
Qed.

(** *** The loop, one round at a time *)

Lemma str_eqb_refl (a : str) : str_eqb a a = true.
Proof. unfold str_eqb. destruct (list_eq_dec N.eq_dec a a); congruence. Qed.

Lemma str_eqb_neq (a b : str) : a <> b -> str_eqb a b = false.
Proof. unfold str_eqb. destruct (list_eq_dec N.eq_dec a b); congruence. Qed.

Lemma error_payload_correct (text : str) :
  payload_of (msg_error text) = Ok (error_payload text).
Proof. rewrite msg_error_string_dict. apply payload_of_string_dict. Qed.

(** A round that read a message goes on with [dispatch]. *)
Lemma serve_step (msg : message) (rt : CanaryRuntime) (w0 w : world) (fuel : nat) :
  read_message w0 = (Ok msg, w) ->
  serve (S fuel) (rt, w0) =
  (again <- dispatch msg ;; if again then serve fuel else ret true) (rt, w).
Proof.
  intros Hread. cbn [serve].
  unfold bind at 1. unfold try_except, bind at 1, lift_io. cbn [fst snd].
  rewrite Hread. reflexivity.
Qed.

Lemma serve_continue (msg : message) (rt : CanaryRuntime) (w0 w : world)
    (s' : proc) (fuel : nat) :
  read_message w0 = (Ok msg, w) ->
  dispatch msg (rt, w) = (Ok true, s') ->
  serve (S fuel) (rt, w0) = serve fuel s'.
Proof.
  intros Hread Hd. rewrite (serve_step msg rt w0 w fuel Hread).
  unfold bind. now rewrite Hd.
Qed.





(** C2, what the code does: with any device other than "mps" the
    constructor raises RuntimeError before the [try] of [main] is entered,
    so the exception leaves [main]: nothing is written to the channel (no
    Fatal frame), no library is called, and the interpreter ends the
    process with status 1. *)
Theorem C2_unsupported_device_raises_out_of_main
    (args : RuntimeConfig) (w : world) :
  device args <> str_lit "mps" ->
  let exc := mkExn RuntimeError (str_lit "This build only supports the MPS backend") in
  main args w = (Uncaught exc, w) /\
  exit_status (fst (main args w)) = Some 1.
Proof.
  intros Hdev exc.
  assert (Hmain : main args w = (Uncaught exc, w)).
  { unfold main, CanaryRuntime_init. now rewrite (str_eqb_neq _ _ Hdev). }
  split; [exact Hmain|]. now rewrite Hmain.
Qed.

(** [load] on a populated handle returns at once. *)
Lemma CanaryRuntime_load_loaded (cfg : RuntimeConfig) (m : Model) (w : world) :
  CanaryRuntime_load (mkRuntime cfg (Some m), w) = (Ok tt, (mkRuntime cfg (Some m), w)).
Proof. reflexivity. Qed.

(** [load] on an empty handle, by what the two libraries answer. *)
Lemma CanaryRuntime_load_empty (cfg : RuntimeConfig) (w : world) :
  let ckpt := Path_str (model_path cfg) in
  let dev := device cfg in
  CanaryRuntime_load (mkRuntime cfg None, w) =
  match restore_from ckpt dev (env w) with
  | (Raise exc, e1) =>
      (Raise exc,
       (mkRuntime cfg None,
        mkWorld (stdin w) (stdout w) e1 (calls w ++ [CallRestoreFrom ckpt dev])))
  | (Ok m, e1) =>
      (fst (freeze m e1),
       (mkRuntime cfg (Some m),
        mkWorld (stdin w) (stdout w) (snd (freeze m e1))
                (calls w ++ [CallRestoreFrom ckpt dev; CallFreeze m])))
  end.
Proof.
  intros ckpt dev.
  unfold CanaryRuntime_load, bind, get_self, set_model, lift_io, external.
  cbn [fst snd _model _config stdin stdout env calls].
  fold ckpt. fold dev.
  destruct (restore_from ckpt dev (env w)) as [[m|exc] e1];
    cbn [fst snd _model _config stdin stdout env calls]; [|reflexivity].
  rewrite <- app_assoc. cbn [app].
  destruct (freeze m e1) as [[[]|exc] e2]; reflexivity.
Qed.

(** C8 (load-once), when the first call returns.  On a runtime whose Engine
    Handle is empty, when [restore_from] returns a model for the configured
    checkpoint and device and [freeze] returns on it, the first call of
    [load] returns with that very model stored in the handle, having called
    the two libraries once each in that order; the second call in sequence
    then is a no-op: it returns at once on the same runtime and world, so
    the handle still holds the model of the first call and no library was
    called again.  More generally, on every runtime and world, every call
    of [load] that returns leaves a populated handle, has changed nothing
    when the handle was populated before, and is followed by a call that
    is a no-op. *)
Theorem C8_second_load_is_a_no_op
    (cfg : RuntimeConfig) (w : world) (m : Model) (e1 e2 : Env) :
  restore_from (Path_str (model_path cfg)) (device cfg) (env w) = (Ok m, e1) ->
  freeze m e1 = (Ok tt, e2) ->
  let s1 := (mkRuntime cfg (Some m),
             mkWorld (stdin w) (stdout w) e2
                     (calls w ++ [CallRestoreFrom (Path_str (model_path cfg)) (device cfg);
                                  CallFreeze m])) in
  CanaryRuntime_load (mkRuntime cfg None, w) = (Ok tt, s1) /\
  CanaryRuntime_load s1 = (Ok tt, s1) /\
  (forall s s' : proc,
     CanaryRuntime_load s = (Ok tt, s') ->
     (exists m', _model (fst s') = Some m') /\
     (forall m0, _model (fst s) = Some m0 -> s' = s) /\
     CanaryRuntime_load s' = (Ok tt, s')).
Proof.
  intros Hrestore Hfreeze s1. split; [|split].
  - rewrite CanaryRuntime_load_empty. cbv zeta. rewrite Hrestore, Hfreeze. reflexivity.
  - reflexivity.
  - intros [[c h] w0] s' H. destruct h as [m0|].
    + rewrite CanaryRuntime_load_loaded in H. injection H as <-.
      split; [now exists m0|]. split; [reflexivity|]. reflexivity.
    + rewrite CanaryRuntime_load_empty in H. cbv zeta in H.
      destruct (restore_from (Path_str (model_path c)) (device c) (env w0))
        as [[m'|exc] e1']; [|discriminate].
      injection H as _ <-.
      split; [now exists m'|]. split; [discriminate|]. reflexivity.
Qed.

(** C7 (state gating): on a runtime whose Engine Handle is empty,
    [transcribe] raises RuntimeError("Model not loaded") before it touches
    anything, so the [try] block of every transcribe request raises an
    exception with the world unchanged: no file is read and the inference
    capability is not called.  Whatever [dispatch] then does with the
    reply, it calls no library; when the request names its file by a
    string, the reply is the error "Model not loaded". *)
Theorem C7_transcribe_rejected_when_not_loaded
    (d : list (str * message)) (rt : CanaryRuntime) (w : world) :
  _model rt = None ->
  dict_get (str_lit "command") d = VStr (str_lit "transcribe") ->
  let exc := mkExn RuntimeError (str_lit "Model not loaded") in
  let reply := error_payload (str_lit "Model not loaded") in
  (forall wav_path,
      CanaryRuntime_transcribe wav_path (rt, w) = (Raise exc, (rt, w))) /\
  (exists e, handle_transcribe d (rt, w) = (Raise e, (rt, w)) /\
             is_Exception e = true) /\
  calls (snd (snd (dispatch (VDict d) (rt, w)))) = calls w /\
  env (snd (snd (dispatch (VDict d) (rt, w)))) = env w /\
  (forall path,
      dict_lookup (str_lit "path") d = Some (VStr path) ->
      dispatch (VDict d) (rt, w) =
      (Ok true,
       (rt, mkWorld (stdin w) (stdout w ++ frame reply) (env w) (calls w)))).
Proof.
  intros Hnone Hcmd exc reply.
  assert (Ht : forall wav_path,
             CanaryRuntime_transcribe wav_path (rt, w) = (Raise exc, (rt, w))).
  { intros wav_path. unfold CanaryRuntime_transcribe, bind, get_self. cbn [fst].
    now rewrite Hnone. }
  assert (Hbody : exists e, handle_transcribe d (rt, w) = (Raise e, (rt, w)) /\
                            is_Exception e = true /\
                            (forall path,
                                dict_lookup (str_lit "path") d = Some (VStr path) ->
                                e = exc)).
  { unfold handle_transcribe, bind, lift_outcome, getitem.
    destruct (dict_lookup (str_lit "path") d) as [p|].
    - unfold Path_new. destruct p as [|b|path|l|d'|o];
        try (eexists; split; [reflexivity|split; [reflexivity|discriminate]]).
      rewrite Ht. exists exc. now repeat split.
    - eexists. split; [reflexivity|split; [reflexivity|discriminate]]. }
  destruct Hbody as (e & Hbody & Hexc & Hstr).
  assert (Hd : dispatch (VDict d) (rt, w) =
               (lift_io (write_message (msg_error (exn_str e))) ;;; ret true) (rt, w)).
  { unfold dispatch. rewrite Hcmd.
    change (value_eq_str (VStr (str_lit "transcribe")) (str_lit "shutdown"))
      with false.
    change (value_eq_str (VStr (str_lit "transcribe")) (str_lit "transcribe"))
      with true.
    cbv iota. unfold bind, try_except. now rewrite Hbody, Hexc. }
  split; [exact Ht|]. split; [now exists e|].
  rewrite Hd. unfold bind, lift_io, ret. cbn [fst snd].
  assert (Hok : write_message (msg_error (str_lit "Model not loaded")) w =
                (Ok tt, mkWorld (stdin w) (stdout w ++ frame reply) (env w) (calls w))).
  { apply write_message_ok; [apply error_payload_correct|].
    vm_compute. reflexivity. }
  destruct (write_message_cases (msg_error (exn_str e)) w) as [[payload Hw]|[e' Hw]];
    rewrite Hw; cbn [fst snd calls env]; repeat split;
    intros path Hpath; rewrite (Hstr path Hpath) in Hw;
    change (exn_str exc) with (str_lit "Model not loaded") in Hw;
    rewrite Hok in Hw; [|discriminate].
  injection Hw as Hw. now rewrite Hw.
Qed.

(** *** What a request can and cannot change *)

Lemma keeps_ret {A} (a : A) : keeps_channel (ret a).
Proof. now intros s. Qed.

Lemma keeps_raise {A} (e : exn) : keeps_channel (@raise proc A e).
Proof. now intros s. Qed.

Lemma keeps_lift_outcome {A} (o : outcome A) : keeps_channel (lift_outcome o).
Proof. now intros s. Qed.

Lemma keeps_get_self : keeps_channel get_self.
Proof. now intros s. Qed.

Lemma keeps_external {A} (c : call) (f : Env -> outcome A * Env) :
  keeps_channel (lift_io (external c f)).
Proof.
  intros [rt w]. unfold lift_io, external. cbn [fst snd].
  now destruct (f (env w)).
Qed.

Lemma keeps_bind {A B} (m : M proc A) (k : A -> M proc B) :
  keeps_channel m -> (forall a, keeps_channel (k a)) -> keeps_channel (bind m k).
Proof.
  intros Hm Hk s. unfold bind. specialize (Hm s).
  destruct (m s) as [[a|e] s1]; cbn [fst snd] in *; [|exact Hm].
  destruct Hm as (H1 & H2 & H3). specialize (Hk a s1).
  destruct Hk as (K1 & K2 & K3). repeat split; congruence.
Qed.

Create HintDb channel.
#[local] Hint Resolve keeps_ret keeps_raise keeps_lift_outcome keeps_get_self
  keeps_external : channel.

(** [transcribe] never touches the runtime object or the two streams. *)
Lemma CanaryRuntime_transcribe_keeps (wav_path : Path) :
  keeps_channel (CanaryRuntime_transcribe wav_path).
Proof.
  unfold CanaryRuntime_transcribe.
  apply keeps_bind; [auto with channel|intros self].
  destruct (_model self) as [m|]; [|auto with channel].
  repeat (apply keeps_bind; [auto with channel|intros ?]);
    try (now auto with channel).
  match goal with
  | |- keeps_channel (match ?x with _ => _ end) => destruct x
  end; auto with channel.
Qed.

(** The [try] block of a transcribe request leaves the runtime and stdin
    alone; it writes one frame when it completes and nothing when it
    raises. *)
Lemma handle_transcribe_frame (d : list (str * message)) (s s1 : proc)
    (o : outcome unit) :
  handle_transcribe d s = (o, s1) ->
  fst s1 = fst s /\
  stdin (snd s1) = stdin (snd s) /\
  match o with
  | Raise _ => stdout (snd s1) = stdout (snd s)
  | Ok _ => exists payload, stdout (snd s1) = stdout (snd s) ++ frame payload
  end.
Proof.
  unfold handle_transcribe, bind, lift_outcome. intros H.
  destruct (getitem d (str_lit "path")) as [p|e];
    [|injection H as <- <-; now repeat split].
  destruct (Path_new p) as [wav_path|e];
    [|injection H as <- <-; now repeat split].
  pose proof (CanaryRuntime_transcribe_keeps wav_path s) as (Hrt & Hin & Hout).
  destruct (CanaryRuntime_transcribe wav_path s) as [[result|e] s2];
    cbn [fst snd] in *; [|injection H as <- <-; now repeat split].
  destruct (getitem result (str_lit "text")) as [text|e];
    [|injection H as <- <-; now repeat split].
  unfold lift_io in H.
  destruct (write_message_cases (msg_result text) (snd s2)) as [[payload Hw]|[e Hw]];
    rewrite Hw in H; injection H as <- <-; cbn [fst snd stdin stdout];
    repeat split; try assumption.
  exists payload. now rewrite Hout.
Qed.

Lemma dispatch_transcribe (d : list (str * message)) :
  dict_get (str_lit "command") d = VStr (str_lit "transcribe") ->
  dispatch (VDict d) =
  (try_except (handle_transcribe d) is_Exception
     (fun exc => lift_io (write_message (msg_error (exn_str exc)))) ;;;
   ret true).
Proof. intros H. unfold dispatch. rewrite H. reflexivity. Qed.

(** Writing a reply keeps the runtime object and stdin. *)
Lemma reply_frame (m : message) (b : bool) (s s1 : proc) (o : outcome bool) :
  (lift_io (write_message m) ;;; ret b) s = (o, s1) ->
  fst s1 = fst s /\ stdin (snd s1) = stdin (snd s).
Proof.
  unfold bind, lift_io, ret. intros H.
  destruct (write_message_cases m (snd s)) as [[payload Hw]|[e Hw]];
    rewrite Hw in H; injection H as <- <-; now split.
Qed.

(** Whatever the message, [dispatch] keeps the runtime object and never
    reads stdin. *)
Lemma dispatch_frame (msg : message) (s s1 : proc) (o : outcome bool) :
  dispatch msg s = (o, s1) ->
  fst s1 = fst s /\ stdin (snd s1) = stdin (snd s).
Proof.
  destruct msg as [| | |l|d|x];
    try (unfold dispatch, raise; intros H; injection H as <- <-; now split).
  unfold dispatch.
  destruct (value_eq_str _ (str_lit "shutdown")); [apply reply_frame|].
  destruct (value_eq_str _ (str_lit "transcribe")); [|apply reply_frame].
  unfold bind, try_except, ret. intros H.
  destruct (handle_transcribe d s) as [[[]|e] s2] eqn:Hbody;
    destruct (handle_transcribe_frame d s s2 _ Hbody) as (Hrt & Hin & _).
  - injection H as <- <-. now split.
  - destruct (is_Exception e); [|injection H as <- <-; now split].
    unfold lift_io in H.
    destruct (write_message_cases (msg_error (exn_str e)) (snd s2))
      as [[payload Hw]|[e' Hw]]; rewrite Hw in H; injection H as <- <-; now split.
Qed.

(** *** The loop always ends *)

Lemma stdin_read_shrinks (n : Z) (w : world) :
  exists data,
    fst (stdin_read n w) = Ok data /\
    (List.length (stdin (snd (stdin_read n w))) + List.length data
     = List.length (stdin w))%nat /\
    (len (stdin w) <= n -> data = stdin w).
Proof.
  unfold stdin_read.
  destruct (Z.leb_spec (len (stdin w)) n) as [Hle|Hgt].
  - exists (stdin w). cbn. repeat split; lia.
  - exists (firstn (Z.to_nat n) (stdin w)). cbn [fst snd stdin].
    repeat split; [|lia].
    rewrite <- (firstn_skipn (Z.to_nat n) (stdin w)) at 3.
    rewrite length_app. lia.
Qed.

(** A message that was read took at least its header off stdin. *)
Lemma read_message_consumes (w w' : world) (msg : message) :
  read_message w = (Ok msg, w') ->
  (List.length (stdin w') < List.length (stdin w))%nat.
Proof.
  unfold read_message, bind.
  destruct (stdin_read_shrinks 4 w) as (header & Hh & Hlen & _).
  destruct (stdin_read 4 w) as [o w1]. cbn [fst snd] in *. subst o.
  destruct (Z.ltb_spec (len header) 4) as [Hlt|Hge]; [discriminate|].
  destruct (stdin_read_shrinks (int_from_bytes header) w1) as (payload & Hp & Hlen' & _).
  destruct (stdin_read (int_from_bytes header) w1) as [o w2].
  cbn [fst snd] in *. subst o.
  destruct (negb _); [discriminate|].
  unfold lift_outcome. intros H. injection H as _ <-.
  unfold len in Hge. lia.
Qed.

Lemma serve_ends (fuel : nat) (s : proc) :
  (List.length (stdin (snd s)) < fuel)%nat ->
  fst (serve fuel s) <> Ok false.
Proof.
  revert s. induction fuel as [|fuel IH]; intros [rt w] Hfuel; [cbn in Hfuel; lia|].
  cbn [snd] in Hfuel.
  destruct (read_message w) as [[msg|e] w1] eqn:Hread.
  - rewrite (serve_step msg rt w w1 fuel Hread). unfold bind.
    destruct (dispatch msg (rt, w1)) as [[again|e] s1] eqn:Hd; cbn [fst snd] in *;
      [|discriminate].
    destruct again; [|discriminate].
    apply IH. destruct (dispatch_frame msg _ _ _ Hd) as [_ Hin]. rewrite Hin.
    pose proof (read_message_consumes w w1 msg Hread). cbn [snd]. lia.
  - cbn [serve]. unfold bind at 1. unfold try_except, bind at 1, lift_io.
    cbn [fst snd]. rewrite Hread.
    destruct (is_EOFError e); cbn; discriminate.
Qed.

(** [main] always comes to an end: with a status or with an exception. *)
Lemma main_terminates (args : RuntimeConfig) (w : world) :
  fst (main args w) <> OutOfFuel.
Proof.
  unfold main.
  destruct (CanaryRuntime_init args w) as [[runtime|e] w1]; [|discriminate].
  destruct (startup (runtime, w1)) as [[[|]|e] s2]; try discriminate.
  pose proof (serve_ends (S (List.length (stdin (snd s2)))) s2
                (Nat.lt_succ_diag_r _)) as H.
  destruct (serve _ s2) as [[[|]|e] s3]; cbn [fst] in *;
    [discriminate|congruence|discriminate].
Qed.

(** C6, as the code has it: when the [try] block of a transcribe request
    raises an exception of class Exception whose error reply fits a frame
    (fewer than 2^32 payload bytes), the block has written nothing, the
    worker writes exactly one frame, the error carrying [str(exc)], the
    runtime with its Engine Handle is what it was, and the loop goes on
    with the rest of the input: the next request is read and dispatched on
    the same runtime. *)
Theorem C6_failed_transcribe_is_isolated
    (d : list (str * message)) (rt : CanaryRuntime) (w0 w : world)
    (exc : exn) (s1 : proc) (fuel : nat) :
  read_message w0 = (Ok (VDict d), w) ->
  dict_get (str_lit "command") d = VStr (str_lit "transcribe") ->
  handle_transcribe d (rt, w) = (Raise exc, s1) ->
  is_Exception exc = true ->
  let reply := error_payload (exn_str exc) in
  len reply < 2 ^ 32 ->
  let w' := mkWorld (stdin w) (stdout w ++ frame reply)
                    (env (snd s1)) (calls (snd s1)) in
  fst s1 = rt /\
  stdout (snd s1) = stdout w /\
  dispatch (VDict d) (rt, w) = (Ok true, (rt, w')) /\
  serve (S fuel) (rt, w0) = serve fuel (rt, w').
Proof.
  intros Hread Hcmd Hbody Hexc reply Hlen w'.
  destruct (handle_transcribe_frame d (rt, w) s1 _ Hbody) as (Hrt & Hin & Hout).
  cbn [fst snd] in Hrt, Hin, Hout.
  assert (Hd : dispatch (VDict d) (rt, w) = (Ok true, (rt, w'))).
  { rewrite (dispatch_transcribe d Hcmd).
    unfold bind, try_except. rewrite Hbody, Hexc.
    unfold lift_io, ret.
    rewrite (write_message_ok _ reply (snd s1) (error_payload_correct _) Hlen).
    cbn [fst snd]. rewrite Hrt, Hin, Hout. reflexivity. }
  repeat split; [exact Hrt|exact Hout|exact Hd|].
  exact (serve_continue _ _ _ _ _ fuel Hread Hd).
Qed.

(** C1, what the code does: when the decoder raises on the payload of a
    well-framed message (any exception but EOFError: JSONDecodeError for
    malformed JSON, UnicodeDecodeError for bad UTF-8), nothing catches it:
    the exception leaves the loop and [main] with the frame consumed and no
    reply written.  No Error frame is sent and the worker stops. *)
Theorem C1_decode_failure_leaves_main
    (args : RuntimeConfig) (rt : CanaryRuntime) (w w1 : world) (s2 : proc)
    (payload rest : bytes) (exc : exn) :
  CanaryRuntime_init args w = (Ok rt, w1) ->
  startup (rt, w1) = (Ok true, s2) ->
  stdin (snd s2) = frame payload ++ rest ->
  len payload < 2 ^ 32 ->
  json_loads payload = Raise exc ->
  is_EOFError exc = false ->
  main args w =
  (Uncaught exc,
   mkWorld rest (stdout (snd s2)) (env (snd s2)) (calls (snd s2))).
Proof.
  intros Hinit Hstart Hin Hlen Hloads Hnot.
  unfold main. rewrite Hinit, Hstart.
  destruct s2 as [rt2 w2]. cbn [snd] in *.
  cbn [serve]. unfold bind at 1. unfold try_except, bind at 1, lift_io.
  cbn [fst snd].
  rewrite (read_message_frame payload rest w2 Hlen Hin), Hloads, Hnot.
  reflexivity.
Qed.

(** *** Samples *)

Lemma forall_below_spec (k : nat) : forall (base : Z) (p : Z -> bool),
  forall_below k base p = true ->
  forall z, base * 2 ^ Z.of_nat k <= z < (base + 1) * 2 ^ Z.of_nat k -> p z = true.
Proof.
  induction k as [|k IH]; intros base p H z Hz.
  - simpl in *. assert (z = base) as -> by lia. exact H.
  - cbn [forall_below] in H. apply andb_true_iff in H as [H0 H1].
    rewrite Nat2Z.inj_succ, Z.pow_succ_r in Hz by lia.
    pose proof (Z.pow_pos_nonneg 2 (Z.of_nat k) ltac:(lia) ltac:(lia)) as Hpos.
    set (t := 2 ^ Z.of_nat k) in *.
    destruct (Z.lt_ge_cases z ((2 * base + 1) * t)).
    + apply (IH _ _ H0). fold t. nia.
    + apply (IH _ _ H1). fold t. nia.
Qed.

Lemma int16_of_bytes_range (lo hi : byte) :
  -32768 <= int16_of_bytes lo hi <= 32767.
Proof.
  unfold int16_of_bytes.
  pose proof (Byte.to_N_bounded lo). pose proof (Byte.to_N_bounded hi).
  cbv zeta.
  destruct (Z.ltb_spec (Z.of_N (Byte.to_N lo) + 256 * Z.of_N (Byte.to_N hi)) 32768);
    lia.
Qed.

(** Every sample [np.frombuffer] yields is an int16. *)
Lemma frombuffer_int16_range (buf : bytes) :
  (forall samples, frombuffer_int16 buf = Ok samples ->
                   Forall (fun s => -32768 <= s <= 32767) samples) /\
  (forall b samples, frombuffer_int16 (b :: buf) = Ok samples ->
                     Forall (fun s => -32768 <= s <= 32767) samples).
Proof.
  induction buf as [|hi rest [IH0 IH1]].
  - split; [intros samples H|intros b samples H].
    + injection H as <-. constructor.
    + discriminate.
  - split; [exact (IH1 hi)|].
    intros lo samples H. cbn [frombuffer_int16] in H.
    destruct (frombuffer_int16 rest) as [tail|e] eqn:E; [|discriminate].
    injection H as <-. constructor.
    + apply int16_of_bytes_range.
    + now apply IH0.
Qed.

(** The float32 arithmetic, run on each of the 65536 values of an int16. *)
Lemma sample_ok_int16 (s : Z) : -32768 <= s <= 32767 -> sample_ok s = true.
Proof.
  intros Hs.
  assert (H : forall_below 16 0 (fun u => sample_ok (u - 32768)) = true)
    by (vm_compute; reflexivity).
  pose proof (forall_below_spec 16 0 _ H (s + 32768)) as Hz.
  cbv beta in Hz. replace (s + 32768 - 32768) with s in Hz by lia.
  apply Hz. change (2 ^ Z.of_nat 16) with 65536. lia.
Qed.

(** The library calls of a transcription that reaches inference. *)
Lemma transcribe_calls (self : CanaryRuntime) (m : Model) (w : world)
    (wav_path : Path) (buf : bytes) (samples : list Z) (e1 e2 : Env) :
  _model self = Some m ->
  read_bytes wav_path (env w) = (Ok buf, e1) ->
  frombuffer_int16 buf = Ok samples ->
  let audio := map normalize_sample samples in
  let dev := device (_config self) in
  to_device audio dev e1 = (Ok tt, e2) ->
  calls (snd (snd (CanaryRuntime_transcribe wav_path (self, w)))) =
  calls w ++ [CallReadBytes wav_path; CallToDevice audio dev;
              CallGenerate m audio (len audio)].
Proof.
  intros Hm Hread Hbuf audio dev Hdev.
  unfold CanaryRuntime_transcribe, bind, get_self, lift_io, external, lift_outcome.
  cbn [fst snd]. rewrite Hm. cbn [fst snd]. rewrite Hread. cbn [fst snd env calls].
  rewrite Hbuf. fold audio. fold dev. rewrite Hdev. cbn [fst snd env calls].
  destruct (generate m audio (len audio) e2) as [[[[text|e]|text]|e] e3];
    cbn [fst snd calls]; now rewrite <- !app_assoc.
Qed.

(** C9 (sample normalisation): every sample [s] that [transcribe] reads
    from the file is an int16; the float32 it becomes, [s] converted and
    divided by 32768.0, is exactly the number s / 32768 and lies between
    -1.0 and 1.0; and the list of these values is what is moved to the
    device and handed to [generate]. *)
Theorem C9_samples_normalized_in_range
    (self : CanaryRuntime) (m : Model) (w : world) (wav_path : Path)
    (buf : bytes) (samples : list Z) (e1 : Env) :
  _model self = Some m ->
  read_bytes wav_path (env w) = (Ok buf, e1) ->
  frombuffer_int16 buf = Ok samples ->
  let audio := map (fun s => f32_div (f32_of_int s) f32_32768) samples in
  let dev := device (_config self) in
  Forall (fun s =>
            -32768 <= s <= 32767 /\
            (exists q, f32_value (f32_div (f32_of_int s) f32_32768) = Some q /\
                       (q == s # 32768)%Q) /\
            SFleb (f32_of_int (-1)) (f32_div (f32_of_int s) f32_32768) = true /\
            SFleb (f32_div (f32_of_int s) f32_32768) (f32_of_int 1) = true)
         samples /\
  (forall e2,
      to_device audio dev e1 = (Ok tt, e2) ->
      calls (snd (snd (CanaryRuntime_transcribe wav_path (self, w)))) =
      calls w ++ [CallReadBytes wav_path; CallToDevice audio dev;
                  CallGenerate m audio (len audio)]).
Proof.
  intros Hm Hread Hbuf audio dev. split.
  - destruct (frombuffer_int16_range buf) as [Hrange _].
    specialize (Hrange samples Hbuf).
    eapply Forall_impl; [|exact Hrange].
    intros s Hs. cbv beta in Hs. pose proof (sample_ok_int16 s Hs) as Hok.
    unfold sample_ok in Hok. cbv zeta in Hok.
    change (normalize_sample s) with (f32_div (f32_of_int s) f32_32768) in Hok.
    apply andb_true_iff in Hok as [Hok Hq].
    apply andb_true_iff in Hok as [Hlo Hhi].
    destruct (f32_value (f32_div (f32_of_int s) f32_32768)) as [q|];
      [|discriminate].
    repeat split; try assumption; try lia.
    exists q. split; [reflexivity|now apply Qeq_bool_iff].
  - intros e2 Hdev.
    exact (transcribe_calls self m w wav_path buf samples e1 e2 Hm Hread Hbuf Hdev).
Qed.

(** *** Replies that do not fit a frame *)

(** An error reply whose escaped text has 2^32 characters or more has no
    frame. *)
Lemma error_reply_overflow (text : str) (w : world) :
  2 ^ 32 <= len (flat_map escape_char text) ->
  write_message (msg_error text) w = (Raise overflow_error, w).
Proof.
  intros Hlen. rewrite msg_error_string_dict.
  apply write_message_string_dict_overflow with (k := str_lit "error") (v := text).
  - right. left. reflexivity.
  - exact Hlen.
Qed.

Lemma len_flat_map_app (a b : str) :
  len (flat_map escape_char (a ++ b)) =
  len (flat_map escape_char a) + len (flat_map escape_char b).
Proof. now rewrite flat_map_app, len_app. Qed.


(** So can the reply to a failed transcription. *)
Lemma dispatch_transcribe_overflow
    (d : list (str * message)) (s s1 : proc) (exc : exn) :
  dict_get (str_lit "command") d = VStr (str_lit "transcribe") ->
  handle_transcribe d s = (Raise exc, s1) ->
  is_Exception exc = true ->
  2 ^ 32 <= len (flat_map escape_char (exn_str exc)) ->
  dispatch (VDict d) s = (Raise overflow_error, s1).
Proof.
  intros Hcmd Hbody Hexc Hlen.
  rewrite (dispatch_transcribe d Hcmd).
  unfold bind, try_except. rewrite Hbody, Hexc.
  unfold lift_io. rewrite (error_reply_overflow _ _ Hlen).
  now destruct s1.
Qed.

End WorkerFacts.

(** ** Runs on the concrete platform *)

Lemma len_escaped_repeat (c : N) (n : Z) :
  0 <= n ->
  len (flat_map escape_char (repeat c (Z.to_nat n))) = n * len (escape_char c).
Proof.
  intros Hn. unfold len. rewrite flat_map_repeat_length. lia.
Qed.

Lemma len_repeat (c : N) (n : Z) : 0 <= n -> len (repeat c (Z.to_nat n)) = n.
Proof. intros Hn. unfold len. rewrite repeat_length. lia. Qed.

Lemma str_neq_by_len (a b : str) : len a <> len b -> a <> b.
Proof. intros H E. apply H. now rewrite E. Qed.

Section Runs.
Import Demo.


Lemma len_long_name : len long_name = 2 ^ 30.
Proof. unfold long_name. now rewrite len_repeat by lia. Qed.

Lemma len_escaped_long_name : len (flat_map escape_char long_name) = 6 * 2 ^ 30.
Proof.
  unfold long_name. rewrite len_escaped_repeat by lia.
  change (len (escape_char 233)) with 6. reflexivity.
Qed.

Lemma find_file_absent (name : str) (fs : list (str * bytes)) :
  Forall (fun entry => len (fst entry) <> len name) fs ->
  find_file name fs = None.
Proof.
  induction 1 as [|[n data] rest Hn _ IH]; [reflexivity|].
  cbn [find_file]. rewrite str_eqb_neq; [exact IH|].
  now apply str_neq_by_len.
Qed.

(** On the concrete machine, a request for a file that does not exist
    fails in [read_bytes]. *)
Lemma transcribe_missing_file (name : str) (w : @world platform) :
  find_file name (files (env w)) = None ->
  @handle_transcribe platform
    [(str_lit "command", VStr (str_lit "transcribe")); (str_lit "path", VStr name)]
    (loaded, w) =
  (Raise (no_such_file name),
   (loaded,
    mkWorld (stdin w) (stdout w) (env w) (calls w ++ [@CallReadBytes platform name]))).
Proof.
  intros Hnone.
  unfold handle_transcribe, CanaryRuntime_transcribe, get_self, lift_io,
    external, lift_outcome, bind.
  cbn. rewrite Hnone. reflexivity.
Qed.

(** *** Witnesses *)


(** C4 on a header that announces 5 bytes, followed by 1. *)
Lemma C4_truncated_frame_witness :
  let w := world0 [x00; x00; x00; x05; x01] in
  @read_message platform w = (Raise (mkExn EOFError []), world0 []) /\
  @serve platform 1 (loaded, w) = (Ok true, (loaded, world0 [])).
Proof.
  intros w.
  apply (@C4_truncated_frame_ends_the_loop platform loaded w 0).
  right. run.
Defined.


(** C6 on a request for a file that does not exist. *)
Lemma C6_failed_transcribe_witness :
  let d : list (str * @message platform) :=
    [(str_lit "command", VStr (str_lit "transcribe"));
     (str_lit "path", VStr (str_lit "/tmp/missing.pcm"))] in
  let w0 := world0 (frame_of (VDict d) ++ frame_of (command (str_lit "shutdown"))) in
  let w := world0 (frame_of (command (str_lit "shutdown"))) in
  let exc := no_such_file (str_lit "/tmp/missing.pcm") in
  let called := [@CallReadBytes platform (str_lit "/tmp/missing.pcm")] in
  let s1 := (loaded, @mkWorld platform (stdin w) [] machine0 called) in
  let w' := @mkWorld platform (stdin w) (frame (error_payload (exn_str exc)))
              machine0 called in
  @handle_transcribe platform d (loaded, w) = (Raise exc, s1) /\
  fst s1 = loaded /\
  stdout (snd s1) = stdout w /\
  @dispatch platform (VDict d) (loaded, w) = (Ok true, (loaded, w')) /\
  @serve platform 2 (loaded, w0) = @serve platform 1 (loaded, w').
Proof.
  intros d w0 w exc called s1 w'.
  assert (Hbody : @handle_transcribe platform d (loaded, w) = (Raise exc, s1))
    by (run).
  split; [exact Hbody|].
  apply (@C6_failed_transcribe_is_isolated platform d loaded w0 w exc s1 1).
  - run.
  - reflexivity.
  - exact Hbody.
  - reflexivity.
  - run.
Defined.

(** C7 on a runtime that was never loaded. *)
Lemma C7_transcribe_rejected_witness :
  let d : list (str * @message platform) :=
    [(str_lit "command", VStr (str_lit "transcribe"));
     (str_lit "path", VStr (str_lit "/tmp/a.pcm"))] in
  let w := world0 [] in
  let exc := mkExn RuntimeError (str_lit "Model not loaded") in
  let reply := error_payload (str_lit "Model not loaded") in
  (forall wav_path,
      @CanaryRuntime_transcribe platform wav_path (unloaded, w) =
      (Raise exc, (unloaded, w))) /\
  (exists e, @handle_transcribe platform d (unloaded, w) = (Raise e, (unloaded, w)) /\
             is_Exception e = true) /\
  calls (snd (snd (@dispatch platform (VDict d) (unloaded, w)))) = calls w /\
  env (snd (snd (@dispatch platform (VDict d) (unloaded, w)))) = env w /\
  (forall path,
      dict_lookup (str_lit "path") d = Some (VStr path) ->
      @dispatch platform (VDict d) (unloaded, w) =
      (Ok true,
       (unloaded,
        mkWorld (stdin w) (stdout w ++ frame reply) (env w) (calls w)))).
Proof.
  intros d w exc reply.
  apply (@C7_transcribe_rejected_when_not_loaded platform d unloaded w); reflexivity.
Defined.

(** C9 on a file of three samples: -32768, 32767 and 1. *)
Lemma C9_samples_normalized_witness :
  let w := @mkWorld platform [] [] machine1 [] in
  let samples := [-32768; 32767; 1] in
  let audio := map (fun s => f32_div (f32_of_int s) f32_32768) samples in
  Forall (fun s =>
            -32768 <= s <= 32767 /\
            (exists q, f32_value (f32_div (f32_of_int s) f32_32768) = Some q /\
                       (q == s # 32768)%Q) /\
            SFleb (f32_of_int (-1)) (f32_div (f32_of_int s) f32_32768) = true /\
            SFleb (f32_div (f32_of_int s) f32_32768) (f32_of_int 1) = true)
         samples /\
  (forall e2,
      @to_device platform audio (str_lit "mps") machine1 = (Ok tt, e2) ->
      calls (snd (snd (@CanaryRuntime_transcribe platform (str_lit "/tmp/b.pcm")
                         (loaded, w)))) =
      [@CallReadBytes platform (str_lit "/tmp/b.pcm");
       @CallToDevice platform audio (str_lit "mps");
       @CallGenerate platform tt audio 3]).
Proof.
  intros w samples audio.
  apply (@C9_samples_normalized_in_range platform loaded tt w (str_lit "/tmp/b.pcm")
           pcm3 samples machine1); reflexivity.
Defined.


(** C1 on a frame whose payload is the single byte of an opening brace:
    the handshake is the only output and JSONDecodeError ends [main]. *)
Lemma C1_decode_failure_witness :
  let w := world0 (frame (bytes_lit "{")) in
  let ready := frame (payload_or_nil (VDict [(str_lit "type", VStr (str_lit "ready"))])) in
  @main platform config0 w =
  (Uncaught (mkExn JSONDecodeError (str_lit "Expecting value")),
   @mkWorld platform [] ready machine0
     [@CallRestoreFrom platform (str_lit "/models/canary.nemo") (str_lit "mps");
      @CallFreeze platform tt]).
Proof.
  intros w ready.
  apply (@C1_decode_failure_leaves_main platform config0 unloaded w w
           (loaded, @mkWorld platform (frame (bytes_lit "{")) ready machine0
                      [@CallRestoreFrom platform (str_lit "/models/canary.nemo")
                         (str_lit "mps");
                       @CallFreeze platform tt])
           (bytes_lit "{") [] (mkExn JSONDecodeError (str_lit "Expecting value")));
    run.
Defined.

(** C2 on the device "cpu". *)
Lemma C2_unsupported_device_witness :
  let args := @mkConfig platform (str_lit "/models/canary.nemo") (str_lit "cpu") in
  @main platform args (world0 []) =
  (Uncaught (mkExn RuntimeError (str_lit "This build only supports the MPS backend")),
   world0 []) /\
  exit_status (fst (@main platform args (world0 []))) = Some 1.
Proof.
  intros args.
  apply (@C2_unsupported_device_raises_out_of_main platform args (world0 [])).
  discriminate.
Defined.

(** *** Counterexamples *)



(** C6 as stated fails on a transcribe request for the file [long_name]:
    [read_bytes] raises, the error text holds the name, and its reply does
    not fit a frame, so the [write_message] of the [except] block raises
    OverflowError: no Error frame is written and the exception leaves the
    loop. *)
Lemma C6_failed_transcribe_reply_too_large :
  let d : list (str * @message platform) :=
    [(str_lit "command", VStr (str_lit "transcribe")); (str_lit "path", VStr long_name)] in
  let s := (loaded, world0 []) in
  let exc := no_such_file long_name in
  let s1 := (loaded, @mkWorld platform [] [] machine0 [@CallReadBytes platform long_name]) in
  @handle_transcribe platform d s = (Raise exc, s1) /\
  is_Exception exc = true /\
  @dispatch platform (VDict d) s = (Raise overflow_error, s1).
Proof.
  intros d s exc s1.
  assert (Hbody : @handle_transcribe platform d s = (Raise exc, s1)).
  { apply (transcribe_missing_file long_name (world0 [])).
    apply find_file_absent.
    repeat constructor; cbn [fst]; rewrite len_long_name; discriminate. }
  split; [exact Hbody|]. split; [reflexivity|].
  apply (@dispatch_transcribe_overflow platform d s s1 exc);
    [reflexivity|exact Hbody|reflexivity|].
  unfold exc, no_such_file. cbn [exn_str].
  rewrite !len_flat_map_app, len_escaped_long_name.
  pose proof (len_nonneg (flat_map escape_char
                            (str_lit "[Errno 2] No such file or directory: '"))).
  pose proof (len_nonneg (flat_map escape_char (str_lit "'"))).
  lia.
Qed.

(** C8 on the platform whose model is the name of its checkpoint, with the
    checkpoint in place. *)
Lemma C8_second_load_witness :
  let ckpt := str_lit "/models/canary.nemo" in
  let s1 := (@mkRuntime Flaky.platform Flaky.config0 (Some ckpt),
             @mkWorld Flaky.platform [] [] true
               [@CallRestoreFrom Flaky.platform ckpt (str_lit "mps");
                @CallFreeze Flaky.platform ckpt]) in
  @CanaryRuntime_load Flaky.platform
    (@mkRuntime Flaky.platform Flaky.config0 None, Flaky.world0 true) = (Ok tt, s1) /\
  @CanaryRuntime_load Flaky.platform s1 = (Ok tt, s1).
Proof.
  intros ckpt s1.
  assert (H := @C8_second_load_is_a_no_op Flaky.platform Flaky.config0 (Flaky.world0 true)
                 ckpt true true eq_refl eq_refl).
  split; [exact (proj1 H)|exact (proj1 (proj2 H))].
Defined.

(** C8 as stated fails when the first call raises: with the checkpoint not
    yet in place the first call of [load] raises out of [restore_from] and
    leaves the handle empty, and the second call in sequence is no no-op:
    it calls [restore_from] and [freeze] and it is the call that populates
    the handle. *)
Lemma C8_second_load_after_a_failed_first_restores :
  let ckpt := str_lit "/models/canary.nemo" in
  let restore := @CallRestoreFrom Flaky.platform ckpt (str_lit "mps") in
  let s0 := (@mkRuntime Flaky.platform Flaky.config0 None, Flaky.world0 false) in
  let s1 := (@mkRuntime Flaky.platform Flaky.config0 None,
             @mkWorld Flaky.platform [] [] true [restore]) in
  let s2 := (@mkRuntime Flaky.platform Flaky.config0 (Some ckpt),
             @mkWorld Flaky.platform [] [] true
               [restore; restore; @CallFreeze Flaky.platform ckpt]) in
  @CanaryRuntime_load Flaky.platform s0 = (Raise (no_such_file ckpt), s1) /\
  @CanaryRuntime_load Flaky.platform s1 = (Ok tt, s2) /\
  s2 <> s1.
Proof.
  intros ckpt restore s0 s1 s2.
  split; [reflexivity|]. split; [reflexivity|]. discriminate.
Qed.

End Runs.

(** * More properties of the worker *)

Section MoreFacts.
Context `{P : Platform}.

Lemma frames_cons (p : bytes) (ps : list bytes) : frames (p :: ps) = frame p ++ frames ps.
Proof. reflexivity. Qed.

Lemma frames_app (ps qs : list bytes) : frames (ps ++ qs) = frames ps ++ frames qs.
Proof. unfold frames. now rewrite map_app, concat_app. Qed.

(** The outcomes of [write_message], with the size of what was written. *)
Lemma write_message_outcomes (msg : message) (w : world) :
  (exists payload,
      payload_of msg = Ok payload /\ fits payload /\
      write_message msg w =
      (Ok tt, mkWorld (stdin w) (stdout w ++ frame payload) (env w) (calls w)))
  \/ (exists e, write_message msg w = (Raise e, w)).
Proof.
  destruct (payload_of msg) as [payload|e] eqn:Hp.
  - destruct (Z.lt_ge_cases (len payload) (2 ^ 32)) as [Hlt|Hge].
    + left. exists payload. repeat split; [exact Hlt|now apply write_message_ok].
    + right. eexists. now apply write_message_overflow with (payload := payload).
  - right. exists e. now apply write_message_raise.
Qed.

Lemma reply_one_reply (msg : message) (b : bool) (s : proc) :
  one_reply s ((lift_io (write_message msg) ;;; ret b) s).
Proof.
  unfold one_reply, bind, lift_io, ret.
  destruct (write_message_outcomes msg (snd s)) as [(payload & _ & Hfit & Hw)|[e Hw]];
    rewrite Hw; cbn [fst snd stdin stdout]; repeat split.
  now exists payload.
Qed.

Lemma handle_transcribe_one_reply (d : list (str * message)) (s : proc) :
  one_reply s (handle_transcribe d s).
Proof.
  unfold one_reply, handle_transcribe, bind, lift_outcome.
  destruct (getitem d (str_lit "path")) as [p|e]; [|now repeat split].
  destruct (Path_new p) as [wav_path|e]; [|now repeat split].
  pose proof (CanaryRuntime_transcribe_keeps wav_path s) as (Hrt & Hin & Hout).
  destruct (CanaryRuntime_transcribe wav_path s) as [[result|e] s2];
    cbn [fst snd] in *; [|now repeat split].
  destruct (getitem result (str_lit "text")) as [text|e]; [|now repeat split].
  unfold lift_io.
  destruct (write_message_outcomes (msg_result text) (snd s2))
    as [(payload & _ & Hfit & Hw)|[e Hw]];
    rewrite Hw; cbn [fst snd stdin stdout]; repeat split; try assumption.
  exists payload. split; [exact Hfit|now rewrite Hout].
Qed.

Lemma dispatch_one_reply (msg : message) (s : proc) : one_reply s (dispatch msg s).
Proof.
  destruct msg as [| | |l|d|o]; try (now repeat split).
  unfold dispatch.
  destruct (value_eq_str _ (str_lit "shutdown")); [apply reply_one_reply|].
  destruct (value_eq_str _ (str_lit "transcribe")); [|apply reply_one_reply].
  pose proof (handle_transcribe_one_reply d s) as (Hrt & Hin & Hout).
  unfold one_reply, bind, try_except, ret.
  destruct (handle_transcribe d s) as [[[]|e] s1]; cbn [fst snd] in *.
  - now repeat split.
  - destruct (is_Exception e); [|now repeat split].
    unfold lift_io.
    destruct (write_message_outcomes (msg_error (exn_str e)) (snd s1))
      as [(payload & _ & Hfit & Hw)|[e' Hw]];
      rewrite Hw; cbn [fst snd stdin stdout]; repeat split; try assumption.
    exists payload. split; [exact Hfit|now rewrite Hout].
Qed.


(** *** The whole run writes whole frames *)

Lemma appends_frames_refl (out : bytes) : appends_frames out out.
Proof. exists []. split; [constructor|]. unfold frames. cbn. now rewrite app_nil_r. Qed.

Lemma appends_frames_one (out payload : bytes) :
  fits payload -> appends_frames out (out ++ frame payload).
Proof.
  intros Hfit. exists [payload]. split; [now constructor|].
  unfold frames. cbn. now rewrite app_nil_r.
Qed.

Lemma appends_frames_trans (a b c : bytes) :
  appends_frames a b -> appends_frames b c -> appends_frames a c.
Proof.
  intros (ps & Hps & ->) (qs & Hqs & ->). exists (ps ++ qs).
  split; [now apply Forall_app|]. now rewrite frames_app, app_assoc.
Qed.

Lemma stdin_read_keeps (n : Z) (w : world) :
  stdout (snd (stdin_read n w)) = stdout w /\
  env (snd (stdin_read n w)) = env w /\
  calls (snd (stdin_read n w)) = calls w.
Proof. unfold stdin_read. now destruct (len (stdin w) <=? n). Qed.

(** Reading a message changes nothing but stdin. *)
Lemma read_message_keeps (w : world) :
  stdout (snd (read_message w)) = stdout w /\
  env (snd (read_message w)) = env w /\
  calls (snd (read_message w)) = calls w.
Proof.
  unfold read_message, bind.
  pose proof (stdin_read_keeps 4 w) as (H1 & H2 & H3).
  destruct (stdin_read 4 w) as [[header|e] w1]; cbn [fst snd] in *;
    [|now repeat split].
  destruct (len header <? 4); [now repeat split|].
  pose proof (stdin_read_keeps (int_from_bytes header) w1) as (K1 & K2 & K3).
  destruct (stdin_read (int_from_bytes header) w1) as [[payload|e] w2];
    cbn [fst snd] in *; [|repeat split; congruence].
  destruct (negb _); cbn; repeat split; congruence.
Qed.

(** A round whose read raises ends the loop: by [break] on EOFError, with
    the exception otherwise. *)
Lemma serve_stop (rt : CanaryRuntime) (w w1 : world) (e : exn) (fuel : nat) :
  read_message w = (Raise e, w1) ->
  serve (S fuel) (rt, w) =
  ((if is_EOFError e then Ok true else Raise e), (rt, w1)).
Proof.
  intros Hread. cbn [serve]. unfold bind at 1. unfold try_except, bind at 1, lift_io.
  cbn [fst snd]. rewrite Hread. now destruct (is_EOFError e).
Qed.

(** The loop keeps the runtime object it was given and only appends whole
    frames to stdout, however it ends. *)
Lemma serve_invariant (fuel : nat) : forall s : proc,
  fst (snd (serve fuel s)) = fst s /\
  appends_frames (stdout (snd s)) (stdout (snd (snd (serve fuel s)))).
Proof.
  induction fuel as [|fuel IH]; intros [rt w].
  - cbn. split; [reflexivity|apply appends_frames_refl].
  - pose proof (read_message_keeps w) as (Hout & _ & _).
    destruct (read_message w) as [[msg|e] w1] eqn:Hread; cbn [fst snd] in *.
    + rewrite (serve_step msg rt w w1 fuel Hread). unfold bind.
      pose proof (dispatch_one_reply msg (rt, w1)) as (Hrt & _ & Hrep).
      destruct (dispatch msg (rt, w1)) as [[again|e] s1]; cbn [fst snd] in *.
      * destruct Hrep as (payload & Hfit & Hs1). cbn [fst snd] in Hs1.
        assert (Hone : appends_frames (stdout w) (stdout (snd s1))).
        { rewrite Hs1, Hout. now apply appends_frames_one. }
        destruct again.
        -- destruct (IH s1) as [IHrt IHout]. split; [congruence|].
           exact (appends_frames_trans _ _ _ Hone IHout).
        -- cbn. now split.
      * cbn [fst snd] in Hrep. split; [exact Hrt|].
        replace (stdout (snd s1)) with (stdout w) by congruence.
        apply appends_frames_refl.
    + rewrite (serve_stop rt w w1 e fuel Hread). cbn [fst snd].
      split; [reflexivity|]. rewrite Hout. apply appends_frames_refl.
Qed.

(** [load] leaves both streams alone. *)
Lemma CanaryRuntime_load_keeps_streams (s : proc) :
  stdin (snd (snd (CanaryRuntime_load s))) = stdin (snd s) /\
  stdout (snd (snd (CanaryRuntime_load s))) = stdout (snd s).
Proof.
  destruct s as [[cfg mdl] w].
  destruct mdl as [m|]; [now split|].
  unfold CanaryRuntime_load, bind, get_self, set_model, lift_io, external.
  cbn [fst snd _model _config stdin stdout env calls].
  destruct (restore_from (Path_str (model_path cfg)) (device cfg) (env w))
    as [[m|e] e1]; cbn [fst snd _model _config stdin stdout env calls];
    [|now split].
  now destruct (freeze m e1) as [[[]|e] e2].
Qed.


Lemma payload_of_ready : payload_of msg_ready = Ok ready_payload.
Proof.
  change msg_ready with (@string_dict opaque [(str_lit "type", str_lit "ready")]).
  apply payload_of_string_dict.
Qed.

Lemma payload_of_shutdown : payload_of msg_shutdown = Ok shutdown_payload.
Proof.
  change msg_shutdown with (@string_dict opaque [(str_lit "type", str_lit "shutdown")]).
  apply payload_of_string_dict.
Qed.

Lemma payload_of_fatal (text : str) : payload_of (msg_fatal text) = Ok (fatal_payload text).
Proof. rewrite msg_fatal_string_dict. apply payload_of_string_dict. Qed.

Lemma payload_of_result (text : str) :
  payload_of (msg_result (VStr text)) = Ok (result_payload text).
Proof. rewrite msg_result_string_dict. apply payload_of_string_dict. Qed.

Lemma fits_ready : fits ready_payload.
Proof. unfold fits. vm_compute. reflexivity. Qed.

Lemma fits_shutdown : fits shutdown_payload.
Proof. unfold fits. vm_compute. reflexivity. Qed.



(** X3 (the Engine Handle is never replaced while serving): the dispatch
    loop ends with the runtime object it started with, whatever the requests
    and however it ends; in particular a loaded model stays the same loaded
    model and an empty handle stays empty. *)
Theorem serve_keeps_the_runtime (fuel : nat) (rt : CanaryRuntime) (w : world) :
  fst (snd (serve fuel (rt, w))) = rt /\
  _model (fst (snd (serve fuel (rt, w)))) = _model rt.
Proof.
  destruct (serve_invariant fuel (rt, w)) as [Hrt _]. cbn [fst] in Hrt.
  now rewrite Hrt.
Qed.

(** *** Start-up *)

Lemma CanaryRuntime_init_ok (args : RuntimeConfig) (w : world) :
  device args = str_lit "mps" ->
  mps_is_available (env w) = true ->
  CanaryRuntime_init args w = (Ok (mkRuntime args None), w).
Proof.
  intros Hdev Hmps. unfold CanaryRuntime_init.
  rewrite Hdev, str_eqb_refl. cbn [negb]. now rewrite Hmps.
Qed.

Lemma startup_ready (s s1 : proc) :
  CanaryRuntime_load s = (Ok tt, s1) ->
  startup s =
  (Ok true,
   (fst s1, mkWorld (stdin (snd s1)) (stdout (snd s1) ++ frame ready_payload)
                    (env (snd s1)) (calls (snd s1)))).
Proof.
  intros Hload. unfold startup, try_except. unfold bind at 1. rewrite Hload.
  unfold bind, lift_io, ret.
  now rewrite (write_message_ok _ _ (snd s1) payload_of_ready fits_ready).
Qed.

(** X4 (handshake): when the device is "mps", the backend is available and
    [load] returns, the first thing [main] writes is the frame of
    [{"type": "ready"}]; everything after it on stdout is a sequence of whole
    frames. *)
Theorem main_sends_ready_first (args : RuntimeConfig) (w : world) (s1 : proc) :
  device args = str_lit "mps" ->
  mps_is_available (env w) = true ->
  CanaryRuntime_load (mkRuntime args None, w) = (Ok tt, s1) ->
  payload_of msg_ready = Ok ready_payload /\
  exists payloads,
    Forall fits payloads /\
    stdout (snd (main args w)) = stdout w ++ frame ready_payload ++ frames payloads.
Proof.
  intros Hdev Hmps Hload. split; [apply payload_of_ready|].
  destruct (CanaryRuntime_load_keeps_streams (mkRuntime args None, w)) as [_ Hout].
  rewrite Hload in Hout. cbn [fst snd] in Hout.
  unfold main. rewrite (CanaryRuntime_init_ok args w Hdev Hmps).
  rewrite (startup_ready _ s1 Hload).
  match goal with
  | |- context [serve ?f ?s] =>
      destruct (serve_invariant f s) as [_ (payloads & Hfits & Hserve)];
      destruct (serve f s) as [[[|]|e] s3]
  end; cbn [fst snd stdout] in *; exists payloads;
    (split; [exact Hfits|]); rewrite Hserve, Hout; now rewrite <- app_assoc.
Qed.

(** X5 (load failure): when constructing the runtime succeeds and [load]
    raises an exception of class Exception whose report fits a frame, [main]
    writes exactly one frame, [{"type": "fatal", "error": str(exc)}],
    returns 1 and has not read a byte of stdin: the dispatch loop never
    ran. *)
Theorem main_reports_load_failure
    (args : RuntimeConfig) (w : world) (exc : exn) (s1 : proc) :
  device args = str_lit "mps" ->
  mps_is_available (env w) = true ->
  CanaryRuntime_load (mkRuntime args None, w) = (Raise exc, s1) ->
  is_Exception exc = true ->
  fits (fatal_payload (exn_str exc)) ->
  payload_of (msg_fatal (exn_str exc)) = Ok (fatal_payload (exn_str exc)) /\
  main args w =
  (Returned 1,
   mkWorld (stdin w) (stdout w ++ frame (fatal_payload (exn_str exc)))
           (env (snd s1)) (calls (snd s1))).
Proof.
  intros Hdev Hmps Hload Hexc Hfit. split; [apply payload_of_fatal|].
  destruct (CanaryRuntime_load_keeps_streams (mkRuntime args None, w)) as [Hin Hout].
  rewrite Hload in Hin, Hout. cbn [fst snd] in Hin, Hout.
  unfold main. rewrite (CanaryRuntime_init_ok args w Hdev Hmps).
  unfold startup, try_except. unfold bind at 1. rewrite Hload, Hexc.
  unfold bind, lift_io, ret.
  rewrite (write_message_ok _ _ (snd s1) (payload_of_fatal _) Hfit).
  cbn [fst snd]. now rewrite Hin, Hout.
Qed.

(** X6 (backend missing): with the device "mps" on a machine where
    [torch.backends.mps.is_available()] is false, the constructor raises
    RuntimeError("MPS backend not available") outside the [try] of [main]:
    the exception leaves [main] and nothing is written or called. *)
Theorem main_raises_when_mps_is_unavailable (args : RuntimeConfig) (w : world) :
  device args = str_lit "mps" ->
  mps_is_available (env w) = false ->
  main args w =
  (Uncaught (mkExn RuntimeError (str_lit "MPS backend not available")), w).
Proof.
  intros Hdev Hmps. unfold main, CanaryRuntime_init.
  rewrite Hdev, str_eqb_refl. cbn [negb]. now rewrite Hmps.
Qed.

(** X7 (failed freeze): when [restore_from] returns a model and [freeze]
    raises, [load] raises with the model already stored in the runtime, so a
    second [load] returns at once without calling [freeze] again: the model
    stays assigned and unfrozen. *)
Theorem load_after_failed_freeze_returns_unfrozen
    (cfg : RuntimeConfig) (w : world) (m : Model) (exc : exn) (e1 e2 : Env) :
  restore_from (Path_str (model_path cfg)) (device cfg) (env w) = (Ok m, e1) ->
  freeze m e1 = (Raise exc, e2) ->
  let s1 := (mkRuntime cfg (Some m),
             mkWorld (stdin w) (stdout w) e2
                     (calls w ++ [CallRestoreFrom (Path_str (model_path cfg)) (device cfg)]
                              ++ [CallFreeze m])) in
  CanaryRuntime_load (mkRuntime cfg None, w) = (Raise exc, s1) /\
  CanaryRuntime_load s1 = (Ok tt, s1).
Proof.
  intros Hrestore Hfreeze s1. split; [|reflexivity].
  unfold CanaryRuntime_load, bind, get_self, set_model, lift_io, external.
  cbn [fst snd _model _config stdin stdout env calls].
  rewrite Hrestore. cbn [fst snd _model _config stdin stdout env calls].
  rewrite Hfreeze. unfold s1. now rewrite <- app_assoc.
Qed.

(** *** Requests *)

(** X8 (shutdown): on a decoded message whose command is "shutdown" the
    worker writes exactly one frame, [{"type": "shutdown"}], and leaves the
    loop; whatever follows the request on stdin is never read. *)
Theorem shutdown_request_stops_the_loop
    (d : list (str * message)) (rt : CanaryRuntime) (w0 w : world) (fuel : nat) :
  read_message w0 = (Ok (VDict d), w) ->
  dict_get (str_lit "command") d = VStr (str_lit "shutdown") ->
  payload_of msg_shutdown = Ok shutdown_payload /\
  serve (S fuel) (rt, w0) =
  (Ok true,
   (rt, mkWorld (stdin w) (stdout w ++ frame shutdown_payload) (env w) (calls w))).
Proof.
  intros Hread Hcmd. split; [apply payload_of_shutdown|].
  rewrite (serve_step _ rt w0 w fuel Hread). unfold bind at 1.
  unfold dispatch. rewrite Hcmd.
  change (value_eq_str (VStr (str_lit "shutdown")) (str_lit "shutdown")) with true.
  cbv iota. unfold bind, lift_io, ret. cbn [fst snd].
  now rewrite (write_message_ok _ _ w payload_of_shutdown fits_shutdown).
Qed.

(** X9 (a message that is not an object): when the payload decodes to a JSON
    value other than an object (a list, a string, a number, null), the call
    [message.get] raises AttributeError outside any [try]: the exception
    leaves the loop with the frame consumed and nothing written. *)
Theorem non_object_message_raises_attribute_error
    (msg : message) (rt : CanaryRuntime) (w0 w : world) (fuel : nat) :
  read_message w0 = (Ok msg, w) ->
  (forall d, msg <> VDict d) ->
  serve (S fuel) (rt, w0) =
  (Raise (mkExn AttributeError
            ([39%N] ++ type_name msg ++ str_lit "' object has no attribute 'get'")),
   (rt, w)).
Proof.
  intros Hread Hnot. rewrite (serve_step _ rt w0 w fuel Hread). unfold bind.
  destruct msg as [| | |l|d|o]; try reflexivity.
  now destruct (Hnot d).
Qed.

(** X10 (transcribe without a path): a transcribe request that has no "path"
    key is answered with the error text of KeyError('path'), which is the
    key between single quotes, and the loop goes on; no file is read and no
    library is called, whether or not a model is loaded. *)
Theorem transcribe_without_path_is_an_error_reply
    (d : list (str * message)) (rt : CanaryRuntime) (w : world) :
  dict_get (str_lit "command") d = VStr (str_lit "transcribe") ->
  dict_lookup (str_lit "path") d = None ->
  let reply := error_payload ([39%N] ++ str_lit "path" ++ [39%N]) in
  dispatch (VDict d) (rt, w) =
  (Ok true, (rt, mkWorld (stdin w) (stdout w ++ frame reply) (env w) (calls w))).
Proof.
  intros Hcmd Hpath reply.
  rewrite (dispatch_transcribe d Hcmd).
  unfold bind at 1. unfold try_except, handle_transcribe.
  unfold bind at 1. unfold lift_outcome at 1, getitem at 1. rewrite Hpath.
  change (is_Exception (mkExn KeyError ([39%N] ++ str_lit "path" ++ [39%N]))) with true.
  cbv iota. unfold lift_io, ret. cbn [fst snd exn_str].
  rewrite (write_message_ok _ reply w (error_payload_correct _)); [reflexivity|].
  vm_compute. reflexivity.
Qed.

(** *** Transcription *)

(** [np.frombuffer] by the parity of the buffer: an even size gives half as
    many samples, an odd size is refused. *)
Lemma frombuffer_int16_parity (buf : bytes) :
  (if Nat.even (List.length buf)
   then exists samples, frombuffer_int16 buf = Ok samples /\
                        List.length buf = (2 * List.length samples)%nat
   else frombuffer_int16 buf = Raise odd_buffer_error) /\
  (forall b,
      if Nat.even (List.length (b :: buf))
      then exists samples, frombuffer_int16 (b :: buf) = Ok samples /\
                           List.length (b :: buf) = (2 * List.length samples)%nat
      else frombuffer_int16 (b :: buf) = Raise odd_buffer_error).
Proof.
  induction buf as [|hi rest [IH0 IH1]].
  - split; [exists []; now split|intros b; reflexivity].
  - split; [exact (IH1 hi)|].
    intros lo. change (List.length (lo :: hi :: rest)) with (S (S (List.length rest))).
    change (Nat.even (S (S (List.length rest)))) with (Nat.even (List.length rest)).
    cbn [frombuffer_int16].
    destruct (Nat.even (List.length rest)).
    + destruct IH0 as (samples & -> & Hlen).
      exists (int16_of_bytes lo hi :: samples). split; [reflexivity|].
      cbn [List.length]. lia.
    + now rewrite IH0.
Qed.

(** A transcription that goes through: the run of [transcribe]. *)
Lemma transcribe_run (rt : CanaryRuntime) (m : Model) (w : world) (wav_path : Path)
    (buf : bytes) (samples : list Z) (e1 e2 e3 : Env)
    (out : gen_output opaque) (text : message) :
  _model rt = Some m ->
  read_bytes wav_path (env w) = (Ok buf, e1) ->
  frombuffer_int16 buf = Ok samples ->
  let audio := map normalize_sample samples in
  let dev := device (_config rt) in
  to_device audio dev e1 = (Ok tt, e2) ->
  generate m audio (len audio) e2 = (Ok out, e3) ->
  output_text out = Ok text ->
  CanaryRuntime_transcribe wav_path (rt, w) =
  (Ok [(str_lit "text", text)],
   (rt, mkWorld (stdin w) (stdout w) e3
                (calls w ++ [CallReadBytes wav_path; CallToDevice audio dev;
                             CallGenerate m audio (len audio)]))).
Proof.
  intros Hm Hread Hbuf audio dev Hdev Hgen Hout.
  unfold CanaryRuntime_transcribe, bind, get_self, lift_io, external, lift_outcome, ret.
  cbn [fst snd]. rewrite Hm. cbn [fst snd]. rewrite Hread. cbn [fst snd env calls].
  rewrite Hbuf. fold audio. fold dev. rewrite Hdev. cbn [fst snd env calls].
  rewrite Hgen. cbn [fst snd stdin stdout env calls].
  rewrite <- !app_assoc. cbn [app].
  destruct out as [first_text|s]; cbn [output_text] in Hout.
  - now rewrite Hout.
  - now injection Hout as <-.
Qed.

(** X11 (a transcription that succeeds): for a loaded runtime and a request
    whose path is a string, when the file is read, its size is even, the
    samples reach the device and [generate] returns, when taking the text
    off the output raises nothing ([output[0]["text"]] for a list,
    [str(output)] otherwise), and when the message
    [{"type": "result", "text": text}] has a JSON encoding that is shorter
    than 2^32 bytes, the worker writes exactly one frame, which holds that
    encoding, and goes on; for a text that is a string the encoding is the
    object of the two string fields.  The libraries were called once each,
    in the order read, move, generate, with one sample per two bytes of the
    file (none for an empty file). *)
Theorem transcribe_request_is_answered_with_the_text
    (d : list (str * message)) (path : str) (text : message) (payload : bytes)
    (rt : CanaryRuntime) (m : Model)
    (w : world) (buf : bytes) (samples : list Z) (e1 e2 e3 : Env)
    (out : gen_output opaque) :
  _model rt = Some m ->
  dict_get (str_lit "command") d = VStr (str_lit "transcribe") ->
  dict_lookup (str_lit "path") d = Some (VStr path) ->
  read_bytes (Path_of_str path) (env w) = (Ok buf, e1) ->
  frombuffer_int16 buf = Ok samples ->
  let audio := map normalize_sample samples in
  let dev := device (_config rt) in
  to_device audio dev e1 = (Ok tt, e2) ->
  generate m audio (len audio) e2 = (Ok out, e3) ->
  output_text out = Ok text ->
  payload_of (msg_result text) = Ok payload ->
  fits payload ->
  len buf = 2 * len audio /\
  (forall t : str, text = VStr t -> payload = result_payload t) /\
  dispatch (VDict d) (rt, w) =
  (Ok true,
   (rt, mkWorld (stdin w) (stdout w ++ frame payload) e3
                (calls w ++ [CallReadBytes (Path_of_str path); CallToDevice audio dev;
                             CallGenerate m audio (len audio)]))).
Proof.
  intros Hm Hcmd Hpath Hread Hbuf audio dev Hdev Hgen Hout Hpayload Hfit.
  split; [|split].
  - destruct (frombuffer_int16_parity buf) as [Hpar _].
    destruct (Nat.even (List.length buf)).
    + destruct Hpar as (samples' & Hs & Hlen). rewrite Hbuf in Hs.
      injection Hs as <-. unfold audio, len. rewrite length_map. lia.
    + rewrite Hbuf in Hpar. discriminate.
  - intros t ->. rewrite payload_of_result in Hpayload. now injection Hpayload as <-.
  - assert (Hrun := transcribe_run rt m w (Path_of_str path) buf samples e1 e2 e3 out
                      text Hm Hread Hbuf Hdev Hgen Hout).
    cbv zeta in Hrun. fold audio in Hrun. fold dev in Hrun.
    rewrite (dispatch_transcribe d Hcmd).
    unfold bind at 1. unfold try_except, handle_transcribe.
    unfold bind at 1. unfold lift_outcome at 1, getitem at 1. rewrite Hpath.
    unfold bind at 1. unfold lift_outcome at 1, Path_new.
    unfold bind at 1. rewrite Hrun.
    unfold bind, lift_outcome, lift_io, ret.
    change (getitem [(str_lit "text", text)] (str_lit "text"))
      with (@Ok message text).
    cbn [fst snd].
    now rewrite (write_message_ok _ _ _ Hpayload Hfit).
Qed.

(** X12 (a file of odd size): for a loaded runtime and a request whose path
    is a string, when the file is read and holds an odd number of bytes, the
    request is answered with the error "buffer size must be a multiple of
    element size" and the loop goes on; the file was read, nothing was moved
    to the device and the inference capability was not called. *)
Theorem odd_sized_file_is_an_error_reply
    (d : list (str * message)) (path : str) (rt : CanaryRuntime) (m : Model)
    (w : world) (buf : bytes) (e1 : Env) :
  _model rt = Some m ->
  dict_get (str_lit "command") d = VStr (str_lit "transcribe") ->
  dict_lookup (str_lit "path") d = Some (VStr path) ->
  read_bytes (Path_of_str path) (env w) = (Ok buf, e1) ->
  Nat.odd (List.length buf) = true ->
  let reply := error_payload (str_lit "buffer size must be a multiple of element size") in
  dispatch (VDict d) (rt, w) =
  (Ok true,
   (rt, mkWorld (stdin w) (stdout w ++ frame reply) e1
                (calls w ++ [CallReadBytes (Path_of_str path)]))).
Proof.
  intros Hm Hcmd Hpath Hread Hodd reply.
  assert (Hbuf : frombuffer_int16 buf = Raise odd_buffer_error).
  { destruct (frombuffer_int16_parity buf) as [Hpar _].
    rewrite <- Nat.negb_even in Hodd.
    destruct (Nat.even (List.length buf)); [discriminate|exact Hpar]. }
  rewrite (dispatch_transcribe d Hcmd).
  unfold bind at 1. unfold try_except, handle_transcribe.
  unfold bind at 1. unfold lift_outcome at 1, getitem at 1. rewrite Hpath.
  unfold bind at 1. unfold lift_outcome at 1, Path_new.
  unfold bind at 1.
  unfold CanaryRuntime_transcribe, bind, get_self, lift_io, external, lift_outcome, ret.
  cbn [fst snd]. rewrite Hm. cbn [fst snd]. rewrite Hread. cbn [fst snd env calls].
  rewrite Hbuf. cbn [fst snd stdin stdout env calls exn_str odd_buffer_error is_Exception exn_cls].
  rewrite (write_message_ok _ reply _ (error_payload_correct _)); [reflexivity|].
  vm_compute. reflexivity.
Qed.

(** *** write_message *)


(** X14 (replies made of strings fail by size only): for a dict whose values
    are all strings, of any content, [json.dumps] yields ASCII text, so
    [encode] cannot raise; [write_message] writes the frame when the text is
    shorter than 2^32 characters and raises OverflowError otherwise. *)
Theorem write_message_on_strings_fails_by_size_only
    (fields : list (str * str)) (w : world) :
  is_ascii (object_text fields) = true /\
  write_message (string_dict fields) w =
  if len (object_text fields) <? 2 ^ 32
  then (Ok tt,
        mkWorld (stdin w) (stdout w ++ frame (map byte_of_N (object_text fields)))
                (env w) (calls w))
  else (Raise overflow_error, w).
Proof.
  split; [apply object_text_ascii|].
  assert (Hlen : len (map byte_of_N (object_text fields)) = len (object_text fields)).
  { unfold len. now rewrite length_map. }
  destruct (Z.ltb_spec (len (object_text fields)) (2 ^ 32)) as [Hlt|Hge].
  - apply write_message_ok; [apply payload_of_string_dict|]. now rewrite Hlen.
  - apply write_message_overflow with (payload := map byte_of_N (object_text fields));
      [apply payload_of_string_dict|]. now rewrite Hlen.
Qed.

(** *** A stream that closes *)

(** A header that announces more bytes than follow it reads as the end of
    the stream. *)
Lemma read_message_short_payload (header rest : bytes) (w : world) :
  stdin w = header ++ rest ->
  len header = 4 ->
  len rest < int_from_bytes header ->
  read_message w = (Raise (mkExn EOFError []), mkWorld [] (stdout w) (env w) (calls w)).
Proof.
  intros Hin H4 Hshort. unfold read_message, bind.
  rewrite <- H4 at 1. rewrite (stdin_read_prefix header rest w Hin). rewrite H4.
  change (4 <? 4) with false. cbv beta iota.
  unfold stdin_read. cbn [stdin stdout env calls].
  destruct (Z.leb_spec (len rest) (int_from_bytes header)); [|lia].
  destruct (Z.eqb_spec (len rest) (int_from_bytes header)); [lia|reflexivity].
Qed.

(** A stream that ends inside a frame reads as the end of the stream. *)
Lemma read_message_truncated (w : world) :
  len (stdin w) < 4 \/
  len (skipn 4 (stdin w)) < int_from_bytes (firstn 4 (stdin w)) ->
  read_message w =
  (Raise (mkExn EOFError []), mkWorld [] (stdout w) (env w) (calls w)).
Proof.
  intros [Hshort|Hpay].
  - unfold read_message, bind, stdin_read.
    destruct (Z.leb_spec (len (stdin w)) 4); [|lia].
    destruct (Z.ltb_spec (len (stdin w)) 4); [reflexivity|lia].
  - destruct (Z.lt_ge_cases (len (stdin w)) 4) as [Hlt|Hge].
    + unfold read_message, bind, stdin_read.
      destruct (Z.leb_spec (len (stdin w)) 4); [|lia].
      destruct (Z.ltb_spec (len (stdin w)) 4); [reflexivity|lia].
    + apply read_message_short_payload
        with (header := firstn 4 (stdin w)) (rest := skipn 4 (stdin w)).
      * symmetry. apply firstn_skipn.
      * unfold len in *. rewrite length_firstn. lia.
      * exact Hpay.
Qed.

(** X18 (the host closes the pipe): when start-up succeeds and stdin holds
    no whole frame -- nothing at all, fewer than 4 bytes, or a header with
    less payload than it announces -- [main] writes the handshake and
    nothing else, calls no library beyond those of [load], and returns 0. *)
Theorem main_returns_zero_on_closed_stream
    (args : RuntimeConfig) (w : world) (s1 : proc) :
  device args = str_lit "mps" ->
  mps_is_available (env w) = true ->
  CanaryRuntime_load (mkRuntime args None, w) = (Ok tt, s1) ->
  len (stdin w) < 4 \/
  len (skipn 4 (stdin w)) < int_from_bytes (firstn 4 (stdin w)) ->
  main args w =
  (Returned 0,
   mkWorld [] (stdout w ++ frame ready_payload) (env (snd s1)) (calls (snd s1))).
Proof.
  intros Hdev Hmps Hload Htrunc.
  destruct (CanaryRuntime_load_keeps_streams (mkRuntime args None, w)) as [Hin Hout].
  rewrite Hload in Hin, Hout. cbn [fst snd] in Hin, Hout.
  unfold main. rewrite (CanaryRuntime_init_ok args w Hdev Hmps).
  rewrite (startup_ready _ s1 Hload).
  set (w2 := mkWorld (stdin (snd s1)) (stdout (snd s1) ++ frame ready_payload)
                     (env (snd s1)) (calls (snd s1))).
  assert (Hread : read_message w2 =
                  (Raise (mkExn EOFError []),
                   mkWorld [] (stdout w2) (env w2) (calls w2))).
  { apply read_message_truncated. unfold w2. cbn [stdin]. now rewrite Hin. }
  cbn [fst snd].
  rewrite (serve_stop (fst s1) w2 _ _ _ Hread).
  unfold w2. cbn [is_EOFError exn_cls fst snd stdout env calls]. now rewrite Hout.
Qed.

(** *** The import guard *)

(** X16 (failed import): when importing PyTorch or NeMo raises an exception
    of class Exception, the module prints the JSON text of a fatal message
    followed by a newline, with no length in front, and raises the exception
    again.  Read as a frame, the line starts with the header 7B 22 74 79,
    which announces 2065855609 bytes: unless the line is that long, a reader
    of the framed protocol finds the end of the stream and no message. *)
Theorem import_failure_is_reported_without_a_frame
    (exc : exn) (repr : exn -> str) (w reader : world) :
  is_Exception exc = true ->
  let text := object_text [(str_lit "type", str_lit "fatal");
                           (str_lit "error",
                            str_lit "Failed to import PyTorch/NeMo: " ++ repr exc)] in
  let line := map byte_of_N (text ++ [10%N]) in
  stdin reader = line ->
  len line < 2065855613 ->
  import_guard (Raise exc) repr w =
  (Raise exc, mkWorld (stdin w) (stdout w ++ line) (env w) (calls w)) /\
  int_from_bytes (firstn 4 line) = 2065855609 /\
  fst (read_message reader) = Raise (mkExn EOFError []).
Proof.
  intros Hexc text line Hin Hshort.
  assert (Hguard : import_guard (Raise exc) repr w =
                   (Raise exc, mkWorld (stdin w) (stdout w ++ line) (env w) (calls w))).
  { unfold import_guard. rewrite Hexc. unfold bind, lift_outcome.
    rewrite msg_fatal_string_dict, json_dumps_string_dict. fold text.
    rewrite encode_utf8_ascii.
    - reflexivity.
    - rewrite is_ascii_app. unfold text. now rewrite object_text_ascii. }
  assert (Hsplit : line = firstn 4 line ++ skipn 4 line)
    by (symmetry; apply firstn_skipn).
  assert (Hhead : firstn 4 line = [x7b; x22; x74; x79]) by reflexivity.
  split; [exact Hguard|]. split; [now rewrite Hhead|].
  rewrite Hsplit in Hin.
  rewrite (read_message_short_payload _ _ reader Hin).
  - reflexivity.
  - now rewrite Hhead.
  - rewrite Hhead. change (int_from_bytes [x7b; x22; x74; x79]) with 2065855609.
    rewrite Hsplit, len_app, Hhead in Hshort.
    change (len [x7b; x22; x74; x79]) with 4 in Hshort. lia.
Qed.

End MoreFacts.

(** *** Normalisation at the ends of the range *)

Lemma sample_edges_ok_int16 (s : Z) : -32768 <= s <= 32767 -> sample_edges_ok s = true.
Proof.
  intros Hs.
  assert (H : forall_below 16 0 (fun u => sample_edges_ok (u - 32768)) = true)
    by (vm_compute; reflexivity).
  pose proof (forall_below_spec 16 0 _ H (s + 32768)) as Hz.
  cbv beta in Hz. replace (s + 32768 - 32768) with s in Hz by lia.
  apply Hz. change (2 ^ Z.of_nat 16) with 65536. lia.
Qed.

(** X15 (normalisation keeps the samples apart): on int16 samples the
    normalisation is one-to-one, its result is strictly below 1.0, and it is
    -1.0 for the sample -32768 and for no other. *)
Theorem normalize_sample_is_injective_below_one (s t : Z) :
  -32768 <= s <= 32767 ->
  -32768 <= t <= 32767 ->
  (normalize_sample s = normalize_sample t -> s = t) /\
  SFltb (normalize_sample s) (f32_of_int 1) = true /\
  (SFeqb (normalize_sample s) (f32_of_int (-1)) = true <-> s = -32768).
Proof.
  intros Hs Ht. split; [|split].
  - intros Heq.
    pose proof (sample_ok_int16 s Hs) as Hos. pose proof (sample_ok_int16 t Ht) as Hot.
    unfold sample_ok in Hos, Hot. cbv zeta in Hos, Hot. rewrite Heq in Hos.
    apply andb_true_iff in Hos as [_ Hqs]. apply andb_true_iff in Hot as [_ Hqt].
    destruct (f32_value (normalize_sample t)) as [q|]; [|discriminate].
    apply Qeq_bool_iff in Hqs. apply Qeq_bool_iff in Hqt.
    rewrite Hqs in Hqt. unfold Qeq in Hqt. cbn [Qnum Qden] in Hqt. lia.
  - pose proof (sample_edges_ok_int16 s Hs) as H. unfold sample_edges_ok in H.
    cbv zeta in H. now apply andb_true_iff in H as [H _].
  - pose proof (sample_edges_ok_int16 s Hs) as H. unfold sample_edges_ok in H.
    cbv zeta in H. apply andb_true_iff in H as [_ H]. apply Bool.eqb_prop in H.
    rewrite H. apply Z.eqb_eq.
Qed.

(** ** More runs on the concrete platform *)

Section MoreRuns.
Import Demo.

(** X4 on the concrete machine with nothing on stdin. *)
Lemma main_sends_ready_first_witness :
  @payload_of platform msg_ready = Ok ready_payload /\
  exists payloads,
    Forall fits payloads /\
    stdout (snd (@main platform config0 (world0 []))) =
    stdout (world0 []) ++ frame ready_payload ++ frames payloads.
Proof.
  refine (@main_sends_ready_first platform config0 (world0 [])
            (loaded,
             @mkWorld platform [] [] machine0
               [@CallRestoreFrom platform (str_lit "/models/canary.nemo") (str_lit "mps");
                @CallFreeze platform tt]) _ _ _); run.
Defined.

(** X5 on a checkpoint that does not exist. *)
Lemma main_reports_load_failure_witness :
  let args := @mkConfig platform (str_lit "/models/none.nemo") (str_lit "mps") in
  let exc := no_such_file (str_lit "/models/none.nemo") in
  let called := [@CallRestoreFrom platform (str_lit "/models/none.nemo") (str_lit "mps")] in
  @payload_of platform (msg_fatal (exn_str exc)) = Ok (fatal_payload (exn_str exc)) /\
  @main platform args (world0 (frame_of (command (str_lit "shutdown")))) =
  (Returned 1,
   @mkWorld platform (frame_of (command (str_lit "shutdown")))
     (frame (fatal_payload (exn_str exc))) machine0 called).
Proof.
  intros args exc called.
  refine (@main_reports_load_failure platform args
            (world0 (frame_of (command (str_lit "shutdown")))) exc
            (@mkRuntime platform args None,
             @mkWorld platform (frame_of (command (str_lit "shutdown"))) [] machine0 called)
            _ _ _ _ _); run.
Defined.

(** X6 on the concrete machine without the MPS backend. *)
Lemma main_raises_when_mps_is_unavailable_witness :
  let w := @mkWorld platform [] [] (mkMachine (files machine0) false) [] in
  @main platform config0 w =
  (Uncaught (mkExn RuntimeError (str_lit "MPS backend not available")), w).
Proof.
  intros w.
  refine (@main_raises_when_mps_is_unavailable platform config0 w _ _); run.
Defined.

(** X7 on the platform whose [freeze] raises. *)
Lemma load_after_failed_freeze_witness :
  let cfg := @mkConfig Faulty.platform (str_lit "/models/canary.nemo") (str_lit "mps") in
  let w := @mkWorld Faulty.platform [] [] machine0 [] in
  let s1 := (@mkRuntime Faulty.platform cfg (Some tt),
             @mkWorld Faulty.platform [] [] machine0
               ([] ++ [@CallRestoreFrom Faulty.platform (str_lit "/models/canary.nemo")
                         (str_lit "mps")]
                   ++ [@CallFreeze Faulty.platform tt])) in
  @CanaryRuntime_load Faulty.platform (@mkRuntime Faulty.platform cfg None, w) =
  (Raise Faulty.out_of_memory, s1) /\
  @CanaryRuntime_load Faulty.platform s1 = (Ok tt, s1).
Proof.
  intros cfg w s1.
  refine (@load_after_failed_freeze_returns_unfrozen Faulty.platform cfg w tt
            Faulty.out_of_memory machine0 machine0 _ _); run.
Defined.

(** X8 on a shutdown request with one more request behind it. *)
Lemma shutdown_request_witness :
  let d : list (str * @message platform) :=
    [(str_lit "command", VStr (str_lit "shutdown"))] in
  let rest := frame_of (command (str_lit "frobnicate")) in
  let w0 := world0 (frame_of (VDict d) ++ rest) in
  @payload_of platform msg_shutdown = Ok shutdown_payload /\
  @serve platform 2 (loaded, w0) =
  (Ok true, (loaded, @mkWorld platform rest (frame shutdown_payload) machine0 [])).
Proof.
  intros d rest w0.
  refine (@shutdown_request_stops_the_loop platform d loaded w0 (world0 rest) 1 _ _); run.
Defined.

(** X9 on the payload of an empty JSON list. *)
Lemma non_object_message_witness :
  let msg : @message platform := VList [] in
  let w0 := world0 (frame_of msg) in
  @serve platform 1 (loaded, w0) =
  (Raise (mkExn AttributeError (str_lit "'list' object has no attribute 'get'")),
   (loaded, world0 [])).
Proof.
  intros msg w0.
  refine (@non_object_message_raises_attribute_error platform msg loaded w0 (world0 []) 0
            _ _); [run|discriminate].
Defined.

(** X10 on a request that only names the command. *)
Lemma transcribe_without_path_witness :
  let d : list (str * @message platform) :=
    [(str_lit "command", VStr (str_lit "transcribe"))] in
  @dispatch platform (VDict d) (loaded, world0 []) =
  (Ok true,
   (loaded,
    @mkWorld platform [] (frame (error_payload ([39%N] ++ str_lit "path" ++ [39%N])))
      machine0 [])).
Proof.
  intros d.
  refine (@transcribe_without_path_is_an_error_reply platform d loaded (world0 []) _ _); run.
Defined.

(** X11 on the file of 16 silent samples. *)
Lemma transcribe_request_witness :
  let d : list (str * @message platform) :=
    [(str_lit "command", VStr (str_lit "transcribe"));
     (str_lit "path", VStr (str_lit "/tmp/a.pcm"))] in
  let audio := map normalize_sample (repeat 0 16) in
  let text := repeat 115%N 16 in
  len (zeros 32) = 2 * len audio /\
  @dispatch platform (VDict d) (loaded, world0 []) =
  (Ok true,
   (loaded,
    @mkWorld platform [] (frame (result_payload text)) machine0
      [@CallReadBytes platform (str_lit "/tmp/a.pcm");
       @CallToDevice platform audio (str_lit "mps");
       @CallGenerate platform tt audio 16])).
Proof.
  intros d audio text.
  assert (Hfit : fits (result_payload text)) by (unfold fits; vm_compute; reflexivity).
  assert (H := @transcribe_request_is_answered_with_the_text platform d
                 (str_lit "/tmp/a.pcm") (VStr text) (result_payload text)
                 loaded tt (world0 []) (zeros 32) (repeat 0 16)
                 machine0 machine0 machine0 (OutputList (Ok (VStr text)))
                 eq_refl eq_refl eq_refl eq_refl eq_refl eq_refl eq_refl eq_refl
                 (@payload_of_result platform text) Hfit).
  split; [exact (proj1 H)|exact (proj2 (proj2 H))].
Defined.

(** X12 on a file of three bytes. *)
Lemma odd_sized_file_witness :
  let d : list (str * @message platform) :=
    [(str_lit "command", VStr (str_lit "transcribe"));
     (str_lit "path", VStr (str_lit "/tmp/odd.pcm"))] in
  let reply := error_payload (str_lit "buffer size must be a multiple of element size") in
  @dispatch platform (VDict d) (loaded, world0 []) =
  (Ok true,
   (loaded,
    @mkWorld platform [] (frame reply) machine0
      [@CallReadBytes platform (str_lit "/tmp/odd.pcm")])).
Proof.
  intros d reply.
  refine (@odd_sized_file_is_an_error_reply platform d (str_lit "/tmp/odd.pcm") loaded tt
            (world0 []) (zeros 3) machine0 _ _ _ _ _); run.
Defined.

(** X15 on the two ends of the range. *)
Lemma normalize_sample_witness :
  (normalize_sample (-32768) = normalize_sample 32767 -> -32768 = 32767) /\
  SFltb (normalize_sample (-32768)) (f32_of_int 1) = true /\
  (SFeqb (normalize_sample (-32768)) (f32_of_int (-1)) = true <-> -32768 = -32768).
Proof.
  apply (normalize_sample_is_injective_below_one (-32768) 32767); lia.
Defined.

(** X18 on a stream that holds two bytes. *)
Lemma main_returns_zero_witness :
  @main platform config0 (world0 [x00; x00]) =
  (Returned 0,
   @mkWorld platform [] (frame ready_payload) machine0
     [@CallRestoreFrom platform (str_lit "/models/canary.nemo") (str_lit "mps");
      @CallFreeze platform tt]).
Proof.
  refine (@main_returns_zero_on_closed_stream platform config0 (world0 [x00; x00])
            (loaded,
             @mkWorld platform [x00; x00] [] machine0
               [@CallRestoreFrom platform (str_lit "/models/canary.nemo") (str_lit "mps");
                @CallFreeze platform tt]) _ _ _ _); try run.
  left. run.
Defined.

(** X16 on a missing torch module. *)
Lemma import_failure_witness :
  let exc := mkExn (OtherException "ModuleNotFoundError") (str_lit "No module named 'torch'") in
  let repr := fun e : exn => str_lit "ModuleNotFoundError(" ++ exn_str e ++ str_lit ")" in
  let text := object_text [(str_lit "type", str_lit "fatal");
                           (str_lit "error",
                            str_lit "Failed to import PyTorch/NeMo: " ++ repr exc)] in
  let line := map byte_of_N (text ++ [10%N]) in
  @import_guard platform (Raise exc) repr (world0 []) =
  (Raise exc, @mkWorld platform [] ([] ++ line) machine0 []) /\
  int_from_bytes (firstn 4 line) = 2065855609 /\
  fst (@read_message platform (world0 line)) = Raise (mkExn EOFError []).
Proof.
  intros exc repr text line.
  refine (@import_failure_is_reported_without_a_frame platform exc repr (world0 [])
            (world0 line) _ _ _); run.
Defined.

End MoreRuns.
